(** * TweetUp backend: a shallow embedding of [backend/app.py]

    The SQLite file is modelled as a record of tables keyed by their
    primary key, the module-level scheduler as a list of jobs, and every
    function of [app.py] as a computation in a small state-and-exception
    monad over the process state.

    What lies outside [app.py] enters as follows.  The random numbers and
    the clock are inputs of each call ([oracle]).  SQLite is modelled
    statement by statement, with its UNIQUE and NOT NULL constraints, its
    AUTOINCREMENT keys, which end at rowid 2^63 - 1, and foreign keys that
    are enforced only on a connection whose pragma is on; the [sqlite3]
    module refuses to bind an integer that does not fit 64 bits.
    APScheduler's triggers are kept as the code constructs them, and the
    [CronTrigger] constructor checks its two field texts: a number or a
    range is accepted when it lies within the field, an empty text or one
    with a letter is refused, and on any other text the verdict is the
    library's, an input like the random numbers.  A request body carries, under each key, null or a JSON value
    of the type of the column it is bound to: a string, an integer or a
    boolean; a value of another JSON type is outside the model. *)

From Stdlib Require Import ZArith Lia Ascii String.
From stdpp Require Import gmap strings list fin_maps sorting.

Local Open Scope Z_scope.

(** ** Rows of the three tables *)

(** [tweetbooks (id, name UNIQUE NOT NULL, description, created_at)] *)
Record tweetbook := {
  name : string;
  description : option string;
  tb_created_at : Z
}.

(** [tweets (id, tweet_id UNIQUE NOT NULL, content NOT NULL, author NOT NULL,
    tweetbook_id, created_at, last_shown)] *)
Record tweet := {
  tweet_id : string;
  content : string;
  author : string;
  tweetbook_id : option Z;
  created_at : Z;
  last_shown : option Z
}.

(** [settings (id, notification_frequency, active_tweetbook_id, start_time,
    end_time, random_mode)]; every column is nullable. *)
Record settings_row := {
  notification_frequency : option string;
  active_tweetbook_id : option Z;
  start_time : option string;
  end_time : option string;
  random_mode : option Z
}.

Global Instance tweetbook_eq_dec : EqDecision tweetbook.
Proof. solve_decision. Defined.
Global Instance tweet_eq_dec : EqDecision tweet.
Proof. solve_decision. Defined.
Global Instance settings_row_eq_dec : EqDecision settings_row.
Proof. solve_decision. Defined.

(** The database file.  A table that was never created holds no row, so it
    is the empty map; the [_seq] fields are the [sqlite_sequence] entries of
    the two AUTOINCREMENT keys (largest rowid ever used). *)
Record db := {
  tweetbooks : gmap Z tweetbook;
  tweetbooks_seq : Z;
  tweets : gmap Z tweet;
  tweets_seq : Z;
  settings : gmap Z settings_row
}.

Definition empty_db : db :=
  {| tweetbooks := ∅; tweetbooks_seq := 0;
     tweets := ∅; tweets_seq := 0;
     settings := ∅ |}.

Definition set_tweetbooks (m : gmap Z tweetbook) (s : Z) (d : db) : db :=
  {| tweetbooks := m; tweetbooks_seq := s;
     tweets := tweets d; tweets_seq := tweets_seq d;
     settings := settings d |}.

Definition set_tweets (m : gmap Z tweet) (s : Z) (d : db) : db :=
  {| tweetbooks := tweetbooks d; tweetbooks_seq := tweetbooks_seq d;
     tweets := m; tweets_seq := s;
     settings := settings d |}.

Definition set_settings (m : gmap Z settings_row) (d : db) : db :=
  {| tweetbooks := tweetbooks d; tweetbooks_seq := tweetbooks_seq d;
     tweets := tweets d; tweets_seq := tweets_seq d;
     settings := m |}.

(** ** Python values *)

(** Truthiness of the values the code tests with a bare [if]. *)
Definition truthy_str (v : option string) : bool :=
  match v with
  | Some s => negb (String.eqb s "")
  | None => false
  end.

Definition truthy_int (v : option Z) : bool :=
  match v with
  | Some n => negb (n =? 0)
  | None => false
  end.

(** A key of the JSON request body: missing, [null], or a value. *)
(* [data.get] cannot tell the first two apart, [data.get] with a default
   can. *)
Inductive jfield (A : Type) : Type :=
| Missing
| Null
| Given (v : A).
Arguments Missing {A}.
Arguments Null {A}.
Arguments Given {A} v.

(** [data.get(key)] *)
Definition dict_get {A} (f : jfield A) : option A :=
  match f with
  | Given v => Some v
  | _ => None
  end.

(** [data.get(key, default)] *)
Definition dict_get_default {A} (f : jfield A) (default : A) : option A :=
  match f with
  | Missing => Some default
  | Null => None
  | Given v => Some v
  end.

(** [s.split(sep)] for a one-character separator. *)
Fixpoint split (sep : Ascii.ascii) (s : string) : list string :=
  match s with
  | EmptyString => [EmptyString]
  | String c rest =>
      if Ascii.eqb c sep then EmptyString :: split sep rest
      else match split sep rest with
           | hd :: tl => String c hd :: tl
           | [] => [String c EmptyString]
           end
  end.


(** ** The SQLite engine: the statements the code executes

    Each statement is a function of the database contents.  A statement
    that can fail on a constraint returns an [outcome]. *)

Inductive exn :=
| IntegrityError      (* sqlite3: UNIQUE, NOT NULL or FOREIGN KEY failed *)
| OperationalError    (* sqlite3: database or disk is full *)
| OverflowError       (* sqlite3: a bound int does not fit 64 bits *)
| TypeError           (* dict(None) *)
| ValueError          (* tuple unpacking of the wrong length;
                         CronTrigger on a field it cannot read *)
| AttributeError      (* None.split *)
| ConflictingIdError. (* apscheduler: job id already present *)

Inductive outcome (A : Type) : Type :=
| Returned (a : A)
| Raised (e : exn).
Arguments Returned {A} a.
Arguments Raised {A} e.

Global Instance exn_eq_dec : EqDecision exn.
Proof. solve_decision. Defined.

(** A parameter of a statement.  The [sqlite3] module binds a Python
    [int] as a 64-bit integer and raises [OverflowError] on one that does
    not fit, before the statement runs; [None] is bound as NULL. *)
Definition int64 (n : Z) : bool :=
  (- 2 ^ 63 <=? n) && (n <? 2 ^ 63).

Definition bindable (v : option Z) : bool :=
  match v with
  | Some n => int64 n
  | None => true
  end.

(** Largest rowid in a table, and the rowid AUTOINCREMENT hands out next:
    one more than the largest rowid that ever existed in the table. *)
Definition max_rowid {A} (m : gmap Z A) : Z :=
  map_fold (λ k _ acc, Z.max k acc) 0 m.

Definition next_rowid {A} (seq : Z) (m : gmap Z A) : Z :=
  Z.max seq (max_rowid m) + 1.

(** The largest rowid there is.  Once it was used, an AUTOINCREMENT table
    takes no further row: the INSERT fails with SQLITE_FULL, before any
    constraint is checked. *)
Definition last_rowid : Z := 2 ^ 63 - 1.

Definition table_full {A} (seq : Z) (m : gmap Z A) : bool :=
  last_rowid <? next_rowid seq m.

Definition name_taken (n : string) (m : gmap Z tweetbook) : bool :=
  bool_decide (map_Exists (λ _ t, name t = n) m).

Definition tweet_id_taken (n : string) (m : gmap Z tweet) : bool :=
  bool_decide (map_Exists (λ _ t, tweet_id t = n) m).

(** A foreign key is checked only when the connection runs with
    [PRAGMA foreign_keys = ON]; NULL references nothing. *)
Definition fk_violation (foreign_keys : bool) (ref : option Z) (d : db) : bool :=
  foreign_keys &&
  match ref with
  | Some k => bool_decide (tweetbooks d !! k = None)
  | None => false
  end.

Definition default_tweetbook (now : Z) : tweetbook :=
  {| name := "Default";
     description := Some "Your default collection of tweets";
     tb_created_at := now |}.

(** Column defaults of [settings] with [active_tweetbook_id] given. *)
Definition default_settings : settings_row :=
  {| notification_frequency := Some "hourly";
     active_tweetbook_id := Some 1;
     start_time := Some "09:00";
     end_time := Some "17:00";
     random_mode := Some 1 |}.

(** [INSERT OR IGNORE INTO tweetbooks (id, name, description)
     VALUES (1, 'Default', ...)] *)
Definition insert_default_tweetbook (now : Z) (d : db) : db :=
  if bool_decide (is_Some (tweetbooks d !! 1)) || name_taken "Default" (tweetbooks d)
  then d
  else set_tweetbooks (<[1 := default_tweetbook now]> (tweetbooks d))
                      (Z.max (tweetbooks_seq d) 1) d.

(** [INSERT OR IGNORE INTO settings (id, active_tweetbook_id) VALUES (1, 1)] *)
Definition insert_default_settings (foreign_keys : bool) (d : db) : outcome db :=
  if bool_decide (is_Some (settings d !! 1)) then Returned d
  else if fk_violation foreign_keys (Some 1) d then Raised IntegrityError
  else Returned (set_settings (<[1 := default_settings]> (settings d)) d).

(** [ORDER BY RANDOM() LIMIT 1]: the engine's random numbers select one
    row of the result; [rnd] stands for them. *)
Definition order_by_random_limit_1 {A} (rnd : nat) (rows : list A) : option A :=
  rows !! (rnd `mod` length rows)%nat.

(** [SELECT id, tweet_id, content, author FROM tweets
     WHERE tweetbook_id = ? ORDER BY RANDOM() LIMIT 1] *)
Definition rows_of_tweetbook (tb : option Z) (d : db) : list (Z * tweet) :=
  match tb with
  | Some k => filter (λ r, tweetbook_id r.2 = Some k) (map_to_list (tweets d))
  | None => []
  end.

Definition select_random_tweet_in (rnd : nat) (tb : option Z) (d : db)
    : option (Z * tweet) :=
  order_by_random_limit_1 rnd (rows_of_tweetbook tb d).

(** [SELECT id, tweet_id, content, author FROM tweets
     ORDER BY RANDOM() LIMIT 1] *)
Definition select_random_tweet (rnd : nat) (d : db) : option (Z * tweet) :=
  order_by_random_limit_1 rnd (map_to_list (tweets d)).

Definition set_last_shown (now : Z) (t : tweet) : tweet :=
  {| tweet_id := tweet_id t; content := content t; author := author t;
     tweetbook_id := tweetbook_id t; created_at := created_at t;
     last_shown := Some now |}.

(** [UPDATE tweets SET last_shown = CURRENT_TIMESTAMP WHERE id = ?] *)
Definition update_last_shown (now : Z) (id : Z) (d : db) : db :=
  set_tweets (alter (set_last_shown now) id (tweets d)) (tweets_seq d) d.

(** [SELECT ... FROM settings WHERE id = 1] *)
Definition select_settings (d : db) : option settings_row :=
  settings d !! 1.

(** [INSERT INTO tweetbooks (name, description) VALUES (?, ?)];
    returns [lastrowid]. *)
Definition insert_tweetbook (now : Z) (n : option string) (descr : option string)
    (d : db) : outcome (Z * db) :=
  if table_full (tweetbooks_seq d) (tweetbooks d) then Raised OperationalError
  else
    match n with
    | None => Raised IntegrityError
    | Some n =>
        if name_taken n (tweetbooks d) then Raised IntegrityError
        else
          let id := next_rowid (tweetbooks_seq d) (tweetbooks d) in
          Returned (id, set_tweetbooks
                          (<[id := {| name := n; description := descr;
                                      tb_created_at := now |}]> (tweetbooks d))
                          id d)
    end.

(** [INSERT INTO tweets (tweet_id, content, author, tweetbook_id)
     VALUES (?, ?, ?, ?)]; returns [lastrowid]. *)
Definition insert_tweet (foreign_keys : bool) (now : Z)
    (tid cont auth : option string) (tb : option Z) (d : db) : outcome (Z * db) :=
  if table_full (tweets_seq d) (tweets d) then Raised OperationalError
  else
    match tid, cont, auth with
    | Some tid, Some cont, Some auth =>
        if tweet_id_taken tid (tweets d) then Raised IntegrityError
        else if fk_violation foreign_keys tb d then Raised IntegrityError
        else
          let id := next_rowid (tweets_seq d) (tweets d) in
          Returned (id, set_tweets
                          (<[id := {| tweet_id := tid; content := cont;
                                      author := auth; tweetbook_id := tb;
                                      created_at := now; last_shown := None |}]>
                             (tweets d))
                          id d)
    | _, _, _ => Raised IntegrityError
    end.

(** The row [get_settings] reads: the settings columns and the name of the
    joined tweetbook. *)
Record settings_view := {
  v_notification_frequency : option string;
  v_start_time : option string;
  v_end_time : option string;
  v_random_mode : option Z;
  v_active_tweetbook_id : option Z;
  v_active_tweetbook_name : string
}.

(** [SELECT s.notification_frequency, ..., t.name as active_tweetbook_name
     FROM settings s JOIN tweetbooks t ON s.active_tweetbook_id = t.id
     WHERE s.id = 1] *)
Definition select_settings_join (d : db) : option settings_view :=
  match settings d !! 1 with
  | Some s =>
      match active_tweetbook_id s with
      | Some a =>
          match tweetbooks d !! a with
          | Some t =>
              Some {| v_notification_frequency := notification_frequency s;
                      v_start_time := start_time s;
                      v_end_time := end_time s;
                      v_random_mode := random_mode s;
                      v_active_tweetbook_id := active_tweetbook_id s;
                      v_active_tweetbook_name := name t |}
          | None => None
          end
      | None => None
      end
  | None => None
  end.

(** One [column = ?] of the dynamic UPDATE with its bound value. *)
Inductive assignment :=
| SetNotificationFrequency (v : option string)
| SetActiveTweetbookId (v : option Z)
| SetStartTime (v : option string)
| SetEndTime (v : option string)
| SetRandomMode (v : Z).

Definition assign (a : assignment) (s : settings_row) : settings_row :=
  match a with
  | SetNotificationFrequency v =>
      {| notification_frequency := v;
         active_tweetbook_id := active_tweetbook_id s;
         start_time := start_time s; end_time := end_time s;
         random_mode := random_mode s |}
  | SetActiveTweetbookId v =>
      {| notification_frequency := notification_frequency s;
         active_tweetbook_id := v;
         start_time := start_time s; end_time := end_time s;
         random_mode := random_mode s |}
  | SetStartTime v =>
      {| notification_frequency := notification_frequency s;
         active_tweetbook_id := active_tweetbook_id s;
         start_time := v; end_time := end_time s;
         random_mode := random_mode s |}
  | SetEndTime v =>
      {| notification_frequency := notification_frequency s;
         active_tweetbook_id := active_tweetbook_id s;
         start_time := start_time s; end_time := v;
         random_mode := random_mode s |}
  | SetRandomMode v =>
      {| notification_frequency := notification_frequency s;
         active_tweetbook_id := active_tweetbook_id s;
         start_time := start_time s; end_time := end_time s;
         random_mode := Some v |}
  end.

Definition assign_all (fields : list assignment) (s : settings_row) : settings_row :=
  fold_left (λ s a, assign a s) fields s.

Definition assigned_reference (a : assignment) : option Z :=
  match a with
  | SetActiveTweetbookId v => v
  | _ => None
  end.

(** [UPDATE settings SET <fields> WHERE id = 1] *)
Definition update_settings_row (foreign_keys : bool) (fields : list assignment)
    (d : db) : outcome db :=
  if bool_decide (is_Some (settings d !! 1)) &&
     existsb (λ a, fk_violation foreign_keys (assigned_reference a) d) fields
  then Raised IntegrityError
  else Returned (set_settings (alter (assign_all fields) 1 (settings d)) d).

(** [DELETE FROM tweets WHERE id = ?]; returns [rowcount]. *)
Definition delete_tweet_row (id : Z) (d : db) : Z * db :=
  match tweets d !! id with
  | Some _ => (1, set_tweets (delete id (tweets d)) (tweets_seq d) d)
  | None => (0, d)
  end.

(** ** The process: scheduler, connections, console *)

(** The two triggers the code constructs, with their constructor arguments. *)
Inductive trigger :=
| IntervalTrigger (minutes : Z)
| CronTrigger (hour minute : string).

(** A scheduled job; its callable is always [show_tweet_notification]. *)
Record job := {
  job_id : string;
  job_trigger : trigger
}.

Global Instance trigger_eq_dec : EqDecision trigger.
Proof. solve_decision. Defined.
Global Instance job_eq_dec : EqDecision job.
Proof. solve_decision. Defined.

(** State of the running process and of the database file it works on.
    [open_conns] counts the connections opened and not closed;
    [recomputes] is a history variable: the settings row each call of
    [update_scheduler] read, oldest first. *)
Record world := {
  store : db;
  jobs : list job;
  open_conns : nat;
  console : list string;
  recomputes : list (option settings_row)
}.

(** The state with one more connection open: what a call leaves when it
    raises between [sqlite3.connect] and [conn.close]. *)
Definition left_open (w : world) : world :=
  {| store := store w; jobs := jobs w; open_conns := S (open_conns w);
     console := console w; recomputes := recomputes w |}.

(** What the environment contributes to one call: the random numbers
    drawn, the reading of the clock, and the verdict of APScheduler on
    the text of a cron field ([accepts name text], for the field called
    [name]) where the model leaves it to the library. *)
Record oracle := {
  rnd : nat;
  now : Z;
  accepts : string → string → bool
}.

(** [random.randint(a, b)]: an integer of [[a, b]] chosen by the draw. *)
Definition randint (o : oracle) (a b : Z) : Z :=
  a + Z.of_nat (rnd o) `mod` (b - a + 1).

(** Computations of the process: a state monad with exceptions. *)
Definition M (A : Type) : Type := world → outcome A * world.

Definition ret {A} (a : A) : M A := λ w, (Returned a, w).

Definition raise {A} (e : exn) : M A := λ w, (Raised e, w).

Definition bind {A B} (m : M A) (k : A → M B) : M B :=
  λ w, match m w with
       | (Returned a, w') => k a w'
       | (Raised e, w') => (Raised e, w')
       end.

(** [try: body except e: handler] *)
Definition try_except {A} (body : M A) (e : exn) (handler : M A) : M A :=
  λ w, match body w with
       | (Raised e', w') =>
           if bool_decide (e' = e) then handler w' else (Raised e', w')
       | r => r
       end.

Notation "'let*' x ':=' m 'in' k" := (bind m (λ x, k))
  (at level 10, x pattern, m at level 100, k at level 200).
Notation "m ';;' k" := (bind m (λ _, k))
  (at level 100, k at level 200, right associativity).

(** A connection: the statements executed on it since the last commit,
    as the database contents they lead to, and its foreign-key pragma. *)
Record connection := {
  pending : option db;
  foreign_keys : bool
}.

(** [sqlite3.connect(DB_PATH)]; the pragma is off on a new connection and
    the code never turns it on. *)
Definition sqlite3_connect : M connection :=
  λ w, (Returned {| pending := None; foreign_keys := false |},
        {| store := store w; jobs := jobs w; open_conns := S (open_conns w);
           console := console w; recomputes := recomputes w |}).

(** What the connection sees: the file, or its own uncommitted changes. *)
Definition view (conn : connection) (w : world) : db :=
  default (store w) (pending conn).

(** [cursor.execute] of a SELECT followed by the fetch.  [params] are
    the integers of the request bound to the statement; binding comes
    first and raises on one that does not fit. *)
Definition query {A} (conn : connection) (params : list (option Z)) (q : db → A)
    : M A :=
  λ w, if forallb bindable params then (Returned (q (view conn w)), w)
       else (Raised OverflowError, w).

(** [cursor.execute] of a statement that writes; [A] is [lastrowid] or
    [rowcount]. *)
Definition execute {A} (conn : connection) (params : list (option Z))
    (stmt : db → outcome (A * db)) : M (A * connection) :=
  λ w, if forallb bindable params then
         match stmt (view conn w) with
         | Returned (a, d) =>
             (Returned (a, {| pending := Some d; foreign_keys := foreign_keys conn |}),
              w)
         | Raised e => (Raised e, w)
         end
       else (Raised OverflowError, w).

(** [conn.commit()] *)
Definition commit (conn : connection) : M connection :=
  λ w, (Returned {| pending := None; foreign_keys := foreign_keys conn |},
        {| store := view conn w; jobs := jobs w; open_conns := open_conns w;
           console := console w; recomputes := recomputes w |}).

(** [conn.close()] *)
Definition close (conn : connection) : M unit :=
  λ w, (Returned tt,
        {| store := store w; jobs := jobs w; open_conns := pred (open_conns w);
           console := console w; recomputes := recomputes w |}).

(** [scheduler.remove_all_jobs()] *)
Definition remove_all_jobs : M unit :=
  λ w, (Returned tt,
        {| store := store w; jobs := []; open_conns := open_conns w;
           console := console w; recomputes := recomputes w |}).

(** [scheduler.add_job(show_tweet_notification, trigger, id=id)] *)
Definition add_job (t : trigger) (id : string) : M unit :=
  λ w, if existsb (λ j, String.eqb (job_id j) id) (jobs w)
       then (Raised ConflictingIdError, w)
       else (Returned tt,
             {| store := store w;
                jobs := jobs w ++ [{| job_id := id; job_trigger := t |}];
                open_conns := open_conns w;
                console := console w; recomputes := recomputes w |}).

(** [print(line)] *)
Definition print (line : string) : M unit :=
  λ w, (Returned tt,
        {| store := store w; jobs := jobs w; open_conns := open_conns w;
           console := console w ++ [line]; recomputes := recomputes w |}).

(** Bookkeeping of [recomputes]; no statement of the source. *)
Definition record_recompute (row : option settings_row) : M unit :=
  λ w, (Returned tt,
        {| store := store w; jobs := jobs w; open_conns := open_conns w;
           console := console w; recomputes := recomputes w ++ [row] |}).

(** ** Cron fields

    [CronTrigger] takes its fields as text.  The code passes a number
    ([minute='0'], the halves of an HH:MM time) or a range
    ([hour='9-17']); a field of one of these two forms matches the values
    from its first to its last number. *)

Definition digit_value (c : Ascii.ascii) : option Z :=
  let n := Z.of_nat (Ascii.nat_of_ascii c) in
  if (48 <=? n) && (n <=? 57) then Some (n - 48) else None.

Fixpoint parse_digits (acc : Z) (s : string) : option Z :=
  match s with
  | EmptyString => Some acc
  | String c rest =>
      match digit_value c with
      | Some d => parse_digits (10 * acc + d) rest
      | None => None
      end
  end.

Definition parse_number (s : string) : option Z :=
  match s with
  | EmptyString => None
  | _ => parse_digits 0 s
  end.

Definition cron_field (expr : string) : option (Z * Z) :=
  match split "-" expr with
  | [a] => match parse_number a with
           | Some n => Some (n, n)
           | None => None
           end
  | [a; b] => match parse_number a, parse_number b with
              | Some first, Some last => Some (first, last)
              | _, _ => None
              end
  | _ => None
  end.


Definition is_letter (c : Ascii.ascii) : bool :=
  let n := Z.of_nat (Ascii.nat_of_ascii c) in
  ((65 <=? n) && (n <=? 90)) || ((97 <=? n) && (n <=? 122)).

Fixpoint has_letter (s : string) : bool :=
  match s with
  | EmptyString => false
  | String c rest => is_letter c || has_letter rest
  end.

(** The check the constructor of [CronTrigger] makes on the text of the
    field [name], whose values run from 0 to [max].  A number or a range
    is accepted when its first number is not above its last and the last
    is not above [max], and refused when not.  Of the other texts, the
    empty one and those with a letter are refused, no hour and no minute
    having a name; on the rest (lists, steps, [*], blanks, ...) the
    verdict is the library's. *)
Definition field_accepted (o : oracle) (name : string) (max : Z) (expr : string)
    : bool :=
  match cron_field expr with
  | Some (first, last) => (first <=? last) && (last <=? max)
  | None =>
      if String.eqb expr "" || has_letter expr then false
      else accepts o name expr
  end.

(** [CronTrigger(hour=hour, minute=minute)]: the trigger, or [ValueError]
    when a field is refused. *)
Definition cron_trigger (o : oracle) (hour minute : string) : M trigger :=
  if field_accepted o "hour" 23 hour && field_accepted o "minute" 59 minute
  then ret (CronTrigger hour minute)
  else raise ValueError.

(** ** The functions of [app.py] *)

(** [init_db()] *)
Definition init_db (o : oracle) : M unit :=
  let* conn := sqlite3_connect in
  let* (_, conn) :=
    execute conn [] (λ d, Returned (tt, insert_default_tweetbook (now o) d)) in
  let* (_, conn) :=
    execute conn [] (λ d, match insert_default_settings (foreign_keys conn) d with
                          | Returned d' => Returned (tt, d')
                          | Raised e => Raised e
                          end) in
  let* conn := commit conn in
  close conn.

(** The dictionary [get_random_tweet] returns. *)
Record tweet_dict := {
  d_id : Z;
  d_tweet_id : string;
  d_content : string;
  d_author : string
}.

(** [get_random_tweet(tweetbook_id=None)].  The id bound to the UPDATE
    was read from the table, where every integer fits 64 bits. *)
Definition get_random_tweet (o : oracle) (tweetbook_id : option Z)
    : M (option tweet_dict) :=
  let* conn := sqlite3_connect in
  let* tweet :=
    if truthy_int tweetbook_id
    then query conn [tweetbook_id] (select_random_tweet_in (rnd o) tweetbook_id)
    else query conn [] (select_random_tweet (rnd o)) in
  match tweet with
  | Some (id, row) =>
      let* (_, conn) :=
        execute conn [] (λ d, Returned (tt, update_last_shown (now o) id d)) in
      let* conn := commit conn in
      ret (Some {| d_id := id; d_tweet_id := tweet_id row;
                   d_content := content row; d_author := author row |})
  | None =>
      close conn;;
      ret None
  end.

(** [show_tweet_notification()] *)
Definition show_tweet_notification (o : oracle) : M (option tweet_dict) :=
  let* conn := sqlite3_connect in
  let* result := query conn [] (λ d, active_tweetbook_id <$> select_settings d) in
  match result with
  | Some active_tweetbook_id =>
      let* tweet := get_random_tweet o active_tweetbook_id in
      match tweet with
      | Some t =>
          print ("NOTIFICATION: Tweet by " +:+ d_author t +:+ ": " +:+ d_content t);;
          ret (Some t)
      | None =>
          close conn;;
          ret None
      end
  | None =>
      close conn;;
      ret None
  end.

(** [update_scheduler()] *)
Definition update_scheduler (o : oracle) : M unit :=
  remove_all_jobs;;
  let* conn := sqlite3_connect in
  let* result := query conn [] select_settings in
  record_recompute result;;
  match result with
  | Some row =>
      let frequency := notification_frequency row in
      if truthy_int (random_mode row) then
        let interval_minutes :=
          if bool_decide (frequency = Some "hourly") then randint o 30 90
          else if bool_decide (frequency = Some "daily") then randint o 720 1440
          else randint o 15 180 in
        add_job (IntervalTrigger interval_minutes) "show_tweet"
      else
        if bool_decide (frequency = Some "hourly") then
          let* trigger := cron_trigger o "9-17" "0" in
          add_job trigger "show_tweet"
        else if bool_decide (frequency = Some "daily") then
          match start_time row with
          | Some s =>
              match split ":" s with
              | [hour; minute] =>
                  let* trigger := cron_trigger o hour minute in
                  add_job trigger "show_tweet"
              | _ => raise ValueError
              end
          | None => raise AttributeError
          end
        else if bool_decide (frequency = Some "custom") then ret tt
        else ret tt
  | None => ret tt
  end;;
  close conn.

(** Bodies of the JSON responses. *)
Inductive json :=
| JError (error : string)
| JMessage (message : string)
| JTweetbook (id : Z) (name description : option string)
| JSavedTweet (id : Z) (tweet_id content author : option string) (tweetbook_id : option Z)
| JTweet (t : tweet_dict)
| JSettings (v : settings_view).

(** A Flask response: body and status code. *)
Definition response : Type := json * Z.

(** Body of [POST /api/tweetbooks]: each key missing, null or a string. *)
Record tweetbook_body := {
  b_name : jfield string;
  b_description : jfield string
}.

(** [create_tweetbook()] *)
Definition create_tweetbook (o : oracle) (data : tweetbook_body) : M response :=
  let name := dict_get (b_name data) in
  let description := dict_get_default (b_description data) "" in
  if negb (truthy_str name) then
    ret (JError "Tweetbook name is required", 400)
  else
    let* conn := sqlite3_connect in
    try_except
      (let* (tweetbook_id, conn) :=
         execute conn [] (insert_tweetbook (now o) name description) in
       let* conn := commit conn in
       close conn;;
       ret (JTweetbook tweetbook_id name description, 201))
      IntegrityError
      (close conn;;
       ret (JError "A tweetbook with this name already exists", 400)).

(** Body of [POST /api/tweets]: the three texts as strings and
    [tweetbook_id] as an integer of any size, each possibly missing or
    null. *)
Record tweet_body := {
  b_tweet_id : jfield string;
  b_content : jfield string;
  b_author : jfield string;
  b_tweetbook_id : jfield Z
}.

(** [save_tweet()] *)
Definition save_tweet (o : oracle) (data : tweet_body) : M response :=
  let tweet_id := dict_get (b_tweet_id data) in
  let content := dict_get (b_content data) in
  let author := dict_get (b_author data) in
  let tweetbook_id := dict_get_default (b_tweetbook_id data) 1 in
  if negb (truthy_str tweet_id && truthy_str content && truthy_str author) then
    ret (JError "Tweet ID, content, and author are required", 400)
  else
    let* conn := sqlite3_connect in
    try_except
      (let* (tweet_db_id, conn) :=
         execute conn [tweetbook_id]
           (insert_tweet (foreign_keys conn) (now o)
                         tweet_id content author tweetbook_id) in
       let* conn := commit conn in
       close conn;;
       ret (JSavedTweet tweet_db_id tweet_id content author tweetbook_id, 201))
      IntegrityError
      (close conn;;
       ret (JError "This tweet has already been saved", 400)).

(** [get_settings()] *)
Definition get_settings : M response :=
  let* conn := sqlite3_connect in
  let* row := query conn [] select_settings_join in
  match row with
  | Some settings =>
      close conn;;
      ret (JSettings settings, 200)
  | None => raise TypeError
  end.

(** Body of [PUT /api/settings]: the three texts as strings,
    [active_tweetbook_id] as an integer of any size and [random_mode] as a
    boolean, each possibly missing or null. *)
Record settings_body := {
  b_notification_frequency : jfield string;
  b_active_tweetbook_id : jfield Z;
  b_start_time : jfield string;
  b_end_time : jfield string;
  b_random_mode : jfield bool
}.

(** The [update_fields] / [update_values] lists [update_settings] builds. *)
Definition update_fields (data : settings_body) : list assignment :=
  let frequency := dict_get (b_notification_frequency data) in
  let active_tweetbook_id := dict_get (b_active_tweetbook_id data) in
  let start_time := dict_get (b_start_time data) in
  let end_time := dict_get (b_end_time data) in
  let random_mode := dict_get (b_random_mode data) in
  (if truthy_str frequency then [SetNotificationFrequency frequency] else []) ++
  (if truthy_int active_tweetbook_id
   then [SetActiveTweetbookId active_tweetbook_id] else []) ++
  (if truthy_str start_time then [SetStartTime start_time] else []) ++
  (if truthy_str end_time then [SetEndTime end_time] else []) ++
  (match random_mode with
   | Some random_mode => [SetRandomMode (if random_mode then 1 else 0)]
   | None => []
   end).

(** [update_settings()] *)
Definition update_settings (o : oracle) (data : settings_body) : M response :=
  let* conn := sqlite3_connect in
  let update_fields := update_fields data in
  let* conn :=
    match update_fields with
    | _ :: _ =>
        let* (_, conn) :=
          execute conn (assigned_reference <$> update_fields)
            (λ d, match update_settings_row (foreign_keys conn) update_fields d with
                  | Returned d' => Returned (tt, d')
                  | Raised e => Raised e
                  end) in
        let* conn := commit conn in
        update_scheduler o;;
        ret conn
    | [] => ret conn
    end in
  close conn;;
  ret (JMessage "Settings updated successfully", 200).

(** [request.args.get('tweetbook_id')], read by what [int] makes of it:
    [ArgInt n] when [int] returns [n], [ArgNotInt] when it raises
    [ValueError].  An empty text is falsy: it skips [int] and reaches
    [get_random_tweet] as it is, where it is falsy again, like [None]. *)
Inductive query_arg :=
| ArgMissing
| ArgEmpty
| ArgInt (n : Z)
| ArgNotInt.

(** [get_random_tweet_endpoint()] *)
Definition get_random_tweet_endpoint (o : oracle) (tweetbook_id : query_arg)
    : M response :=
  let run (tb : option Z) : M response :=
    let* tweet := get_random_tweet o tb in
    match tweet with
    | Some t => ret (JTweet t, 200)
    | None => ret (JError "No tweets found", 404)
    end in
  match tweetbook_id with
  | ArgInt n => run (Some n)
  | ArgNotInt => ret (JError "Invalid tweetbook ID", 400)
  | ArgMissing | ArgEmpty => run None
  end.

(** [delete_tweet(tweet_id)] *)
Definition delete_tweet (tweet_id : Z) : M response :=
  let* conn := sqlite3_connect in
  let* (rowcount, conn) :=
    execute conn [Some tweet_id] (λ d, Returned (delete_tweet_row tweet_id d)) in
  let* conn := commit conn in
  if 0 <? rowcount then
    close conn;;
    ret (JMessage "Tweet deleted successfully", 200)
  else
    close conn;;
    ret (JError "Tweet not found", 404).

(** Import of the module on a database file: [init_db()], a fresh
    scheduler, then [update_scheduler()]. *)
Definition fresh_process (file : db) : world :=
  {| store := file; jobs := []; open_conns := 0; console := [];
     recomputes := [] |}.

Definition startup (o : oracle) (file : db) : outcome unit * world :=
  (init_db o;; update_scheduler o) (fresh_process file).

Definition show_tweet_job (t : trigger) : job :=
  {| job_id := "show_tweet"; job_trigger := t |}.

(** ** What the process can be asked to do *)

Inductive request :=
| CreateTweetbook (data : tweetbook_body)
| SaveTweet (data : tweet_body)
| GetSettings
| UpdateSettings (data : settings_body)
| RandomTweet (tweetbook_id : query_arg)
| DeleteTweet (tweet_id : Z)
| JobFires.

(** The state a request, or a firing of the scheduled job, leaves behind,
    whether the handler returned or raised. *)
Definition serve (o : oracle) (r : request) (w : world) : world :=
  match r with
  | CreateTweetbook data => (create_tweetbook o data w).2
  | SaveTweet data => (save_tweet o data w).2
  | GetSettings => (get_settings w).2
  | UpdateSettings data => (update_settings o data w).2
  | RandomTweet tweetbook_id => (get_random_tweet_endpoint o tweetbook_id w).2
  | DeleteTweet tweet_id => (delete_tweet tweet_id w).2
  | JobFires => (show_tweet_notification o w).2
  end.

(** States of a process that started on a new database, served requests,
    and was possibly started again on the database it left. *)
Inductive reachable : world → Prop :=
| reachable_start o : reachable (startup o empty_db).2
| reachable_serve o r w : reachable w → reachable (serve o r w)
| reachable_restart o w : reachable w → reachable (startup o (store w)).2.

(** The rows the SELECT of [get_random_tweet] ranges over. *)
Definition candidates (tweetbook_id : option Z) (d : db) : list (Z * tweet) :=
  if truthy_int tweetbook_id then rows_of_tweetbook tweetbook_id d
  else map_to_list (tweets d).

(** The dictionary built from a row of [tweets]. *)
Definition dict_of (id : Z) (row : tweet) : tweet_dict :=
  {| d_id := id; d_tweet_id := tweet_id row; d_content := content row;
     d_author := author row |}.

(** Every foreign key names a row of [tweetbooks]. *)
Definition referential_integrity (d : db) : Prop :=
  (∀ id row k, tweets d !! id = Some row → tweetbook_id row = Some k →
               is_Some (tweetbooks d !! k)) ∧
  (∀ id row k, settings d !! id = Some row → active_tweetbook_id row = Some k →
               is_Some (tweetbooks d !! k)).

(** How each handler can change the database. *)
Inductive db_change (d : db) : db → Prop :=
| change_none : db_change d d
| change_tweets m s : db_change d (set_tweets m s d)
| change_settings f :
    db_change d (set_settings (alter f 1 (settings d)) d)
| change_new_tweetbook n descr t :
    name_taken n (tweetbooks d) = false →
    table_full (tweetbooks_seq d) (tweetbooks d) = false →
    db_change d
      (set_tweetbooks
         (<[next_rowid (tweetbooks_seq d) (tweetbooks d)
            := {| name := n; description := descr; tb_created_at := t |}]>
            (tweetbooks d))
         (next_rowid (tweetbooks_seq d) (tweetbooks d)) d).

(** What holds of a database this program wrote: tweetbook ids are
    rowids from 1 on, row 1 is the tweetbook named Default, names are
    unique, and the settings table holds row 1 and no other. *)
Definition written_by_program (d : db) : Prop :=
  (∀ k, is_Some (tweetbooks d !! k) → 1 ≤ k ≤ last_rowid) ∧
  (∃ t, tweetbooks d !! 1 = Some t ∧ name t = "Default") ∧
  (∀ k1 k2 t1 t2, tweetbooks d !! k1 = Some t1 → tweetbooks d !! k2 = Some t2 →
                  name t1 = name t2 → k1 = k2) ∧
  (∀ k, is_Some (settings d !! k) ↔ k = 1).

(** The contents [init_db] commits: its two inserts, run on a connection
    as [sqlite3_connect] opens it. *)
Definition db_after_init (now : Z) (d : db) : db :=
  match insert_default_settings false (insert_default_tweetbook now d) with
  | Returned d' => d'
  | Raised _ => d
  end.

(** ** Sample states and requests *)

Definition sample_oracle : oracle :=
  {| rnd := 7; now := 1000; accepts := λ _ _, false |}.

(** The process after its first start on a database that does not exist. *)
Definition first_run : world := (startup sample_oracle empty_db).2.

Definition no_settings : settings_body :=
  {| b_notification_frequency := Missing; b_active_tweetbook_id := Missing;
     b_start_time := Missing; b_end_time := Missing; b_random_mode := Missing |}.

Definition only_random_mode (v : bool) : settings_body :=
  {| b_notification_frequency := Missing; b_active_tweetbook_id := Missing;
     b_start_time := Missing; b_end_time := Missing; b_random_mode := Given v |}.

Definition daily_at (t : string) : settings_body :=
  {| b_notification_frequency := Given "daily"; b_active_tweetbook_id := Missing;
     b_start_time := Given t; b_end_time := Missing; b_random_mode := Given false |}.

(** The process after [PUT /api/settings] switched it to a fixed daily
    time. *)
Definition daily_run : world :=
  (update_settings sample_oracle (daily_at "09:30") first_run).2.

Definition tweet_in (tid : string) (tb : jfield Z) : tweet_body :=
  {| b_tweet_id := Given tid; b_content := Given "hi"; b_author := Given "a";
     b_tweetbook_id := tb |}.

(** The process after two tweets were saved, the first with
    [tweetbook_id] 0 and the second into the default tweetbook. *)
Definition two_tweets : world :=
  serve sample_oracle (SaveTweet (tweet_in "T2" Missing))
    (serve sample_oracle (SaveTweet (tweet_in "T1" (Given 0))) first_run).

(** A later call whose random draw selects the first row. *)
Definition later_oracle : oracle :=
  {| rnd := 0; now := 2000; accepts := λ _ _, false |}.

Definition jokes : tweetbook_body :=
  {| b_name := Given "Jokes"; b_description := Missing |}.

(** [two_tweets] after [POST /api/tweetbooks] created an empty tweetbook. *)
Definition with_jokes : world :=
  serve sample_oracle (CreateTweetbook jokes) two_tweets.

(** [PUT /api/settings] that supplies [active_tweetbook_id] alone. *)
Definition activate (k : Z) : settings_body :=
  {| b_notification_frequency := Missing; b_active_tweetbook_id := Given k;
     b_start_time := Missing; b_end_time := Missing; b_random_mode := Missing |}.

(** A database whose settings row has no active tweetbook, with one tweet. *)
Definition no_active_tweetbook : world :=
  fresh_process
    {| tweetbooks := {[1 := default_tweetbook 0]}; tweetbooks_seq := 1;
       tweets := {[1 := {| tweet_id := "T1"; content := "hi"; author := "a";
                           tweetbook_id := Some 1; created_at := 0;
                           last_shown := None |}]};
       tweets_seq := 1;
       settings := {[1 := {| notification_frequency := Some "hourly";
                             active_tweetbook_id := None;
                             start_time := Some "09:00";
                             end_time := Some "17:00";
                             random_mode := Some 1 |}]} |}.

(** ** The two listing endpoints *)

(** A row of [get_tweetbooks]. *)
Record tweetbook_dict := {
  l_id : Z;
  l_name : string;
  l_description : option string
}.

(** [SELECT id, name, description FROM tweetbooks].  The statement fixes
    no order; the rows are listed in the order of the map. *)
Definition select_tweetbooks (d : db) : list tweetbook_dict :=
  (λ r, {| l_id := r.1; l_name := name r.2; l_description := description r.2 |})
    <$> map_to_list (tweetbooks d).

(** [get_tweetbooks()] *)
Definition get_tweetbooks : M (list tweetbook_dict * Z) :=
  let* conn := sqlite3_connect in
  let* tweetbooks := query conn [] select_tweetbooks in
  close conn;;
  ret (tweetbooks, 200).

(** A row of [get_tweets_by_tweetbook]. *)
Record listed_tweet := {
  t_id : Z;
  t_tweet_id : string;
  t_content : string;
  t_author : string;
  t_created_at : Z;
  t_last_shown : option Z
}.

Definition listed (r : Z * tweet) : listed_tweet :=
  {| t_id := r.1; t_tweet_id := tweet_id r.2; t_content := content r.2;
     t_author := author r.2; t_created_at := created_at r.2;
     t_last_shown := last_shown r.2 |}.

(** [ORDER BY created_at DESC]: a row comes before the rows created no
    later than it. *)
Definition newest_first (a b : Z * tweet) : Prop :=
  created_at b.2 ≤ created_at a.2.

Global Instance newest_first_dec a b : Decision (newest_first a b).
Proof. unfold newest_first. apply _. Defined.

Global Instance newest_first_total : Total newest_first.
Proof. intros a b. unfold newest_first. lia. Qed.

Global Instance newest_first_trans : Transitive newest_first.
Proof. intros a b c. unfold newest_first. lia. Qed.

(** [SELECT t.id, t.tweet_id, t.content, t.author, t.created_at,
     t.last_shown FROM tweets t WHERE t.tweetbook_id = ?
     ORDER BY t.created_at DESC] *)
Definition select_tweets_by_tweetbook (tb : Z) (d : db) : list listed_tweet :=
  listed <$> merge_sort newest_first (rows_of_tweetbook (Some tb) d).

(** [get_tweets_by_tweetbook(tweetbook_id)] *)
Definition get_tweets_by_tweetbook (tweetbook_id : Z)
    : M (list listed_tweet * Z) :=
  let* conn := sqlite3_connect in
  let* tweets :=
    query conn [Some tweetbook_id] (select_tweets_by_tweetbook tweetbook_id) in
  close conn;;
  ret (tweets, 200).

(** ** Histories *)

(** [later w w']: the process in state [w] comes to state [w'] by serving
    requests and by being started again on its database. *)
Inductive later (w : world) : world → Prop :=
| later_now : later w w
| later_serve o r w' : later w w' → later w (serve o r w')
| later_restart o w' : later w w' → later w (startup o (store w')).2.

(** The state with another database. *)
Definition with_store (d : db) (w : world) : world :=
  {| store := d; jobs := jobs w; open_conns := open_conns w;
     console := console w; recomputes := recomputes w |}.

(** How each handler can change the tweets table and its key sequence. *)
Inductive tweets_change (d d' : db) : Prop :=
| tweets_kept :
    tweets d' = tweets d → tweets_seq d' = tweets_seq d → tweets_change d d'
| tweets_shown now id :
    tweets d' = alter (set_last_shown now) id (tweets d) →
    tweets_seq d' = tweets_seq d → tweets_change d d'
| tweets_deleted id :
    tweets d' = delete id (tweets d) →
    tweets_seq d' = tweets_seq d → tweets_change d d'
| tweets_saved row :
    tweet_id_taken (tweet_id row) (tweets d) = false →
    table_full (tweets_seq d) (tweets d) = false →
    tweet_id row ≠ "" → content row ≠ "" → author row ≠ "" →
    tweets d' = <[next_rowid (tweets_seq d) (tweets d) := row]> (tweets d) →
    tweets_seq d' = next_rowid (tweets_seq d) (tweets d) →
    tweets_change d d'.

(** What holds of the tweets of a database this program wrote: keys lie
    between 1 and the key sequence, which is a rowid or still 0, no two
    rows share a [tweet_id], and no row has an empty [tweet_id],
    [content] or [author]. *)
Definition tweets_written (d : db) : Prop :=
  (∀ k, is_Some (tweets d !! k) → 1 ≤ k ≤ tweets_seq d) ∧
  (∀ k1 k2 t1 t2, tweets d !! k1 = Some t1 → tweets d !! k2 = Some t2 →
                  tweet_id t1 = tweet_id t2 → k1 = k2) ∧
  (∀ k t, tweets d !! k = Some t →
          tweet_id t ≠ "" ∧ content t ≠ "" ∧ author t ≠ "") ∧
  tweets_seq d ≤ last_rowid.


(** Number of occurrences of a character. *)
Fixpoint count_char (c : Ascii.ascii) (s : string) : nat :=
  match s with
  | EmptyString => 0
  | String c' rest =>
      if Ascii.eqb c' c then S (count_char c rest) else count_char c rest
  end.

(* ===================================================================== *)
(** * Properties *)
(* ===================================================================== *)

Example split_0930 : split ":" "09:30" = ["09"; "30"].
Proof. reflexivity. Qed.
Example split_none : split ":" "noon" = ["noon"].
Proof. reflexivity. Qed.
Example split_three : split ":" "09:30:00" = ["09"; "30"; "00"].
Proof. reflexivity. Qed.

(** ** Monad plumbing *)

Ltac run :=
  unfold cron_trigger, bind, ret, raise, try_except, sqlite3_connect, query,
    execute, commit, close, remove_all_jobs, add_job, print, record_recompute,
    view;
  simpl.

(** ** The scheduler derivation *)


(** Every value of the range is drawn by some oracle. *)
Lemma randint_onto (a b v : Z) :
  a ≤ v ≤ b → ∃ r, ∀ o, rnd o = r → randint o a b = v.
Proof.
  intros Hv. exists (Z.to_nat (v - a)). intros o Hr. unfold randint.
  rewrite Hr, Z2Nat.id by lia. rewrite Z.mod_small by lia. lia.
Qed.

Lemma digit_not_dash c d : digit_value c = Some d → Ascii.eqb c "-" = false.
Proof.
  intros H. destruct (Ascii.eqb_spec c "-") as [->|]; [|done].
  by vm_compute in H.
Qed.

Lemma digits_split_dash s acc n :
  parse_digits acc s = Some n → split "-" s = [s].
Proof.
  revert acc. induction s as [|c s IH]; intros acc H; [done|].
  simpl in *. destruct (digit_value c) as [d|] eqn:Hd; [|done].
  rewrite (digit_not_dash _ _ Hd). by rewrite (IH _ H).
Qed.

Lemma cron_field_number s n :
  parse_number s = Some n → cron_field s = Some (n, n).
Proof.
  intros H. unfold cron_field.
  assert (split "-" s = [s]) as ->.
  { destruct s; [done|]. eapply digits_split_dash. exact H. }
  by rewrite H.
Qed.



Lemma daytime_hours_accepted o : field_accepted o "hour" 23 "9-17" = true.
Proof. reflexivity. Qed.

Lemma minute_0_accepted o : field_accepted o "minute" 59 "0" = true.
Proof. reflexivity. Qed.

Lemma field_accepted_number o name max s n :
  parse_number s = Some n → field_accepted o name max s = (n <=? max).
Proof.
  intros H. unfold field_accepted. rewrite (cron_field_number _ _ H).
  by rewrite Z.leb_refl.
Qed.

Ltac sched_cases row :=
  rewrite ?daytime_hours_accepted, ?minute_0_accepted; simpl;
  destruct (truthy_int (random_mode row)); simpl;
  repeat case_bool_decide; simpl; try done;
  destruct (start_time row) as [?s|]; simpl; try done;
  destruct (split ":" s) as [|?hour [|?minute [|? ?]]]; simpl; try done;
  destruct (field_accepted _ "hour" 23 hour), (field_accepted _ "minute" 59 minute);
  simpl; done.

(** The daily branch, once the start time has split in two. *)
Lemma update_scheduler_daily o w row s hour minute :
  select_settings (store w) = Some row →
  truthy_int (random_mode row) = false →
  notification_frequency row = Some "daily" →
  start_time row = Some s → split ":" s = [hour; minute] →
  update_scheduler o w
  = if field_accepted o "hour" 23 hour && field_accepted o "minute" 59 minute
    then (Returned tt,
          {| store := store w; jobs := [show_tweet_job (CronTrigger hour minute)];
             open_conns := open_conns w; console := console w;
             recomputes := recomputes w ++ [Some row] |})
    else (Raised ValueError,
          {| store := store w; jobs := []; open_conns := S (open_conns w);
             console := console w; recomputes := recomputes w ++ [Some row] |}).
Proof.
  intros Hrow Hr Hf Hs Hsplit. unfold update_scheduler. run.
  rewrite Hrow. simpl. rewrite Hr.
  rewrite bool_decide_false by congruence. rewrite bool_decide_true by done.
  rewrite Hs, Hsplit.
  by destruct (field_accepted o "hour" 23 hour),
    (field_accepted o "minute" 59 minute).
Qed.


(** A start time without exactly one colon makes the unpacking of the
    split fail: the call raises after the jobs were removed. *)
Lemma update_scheduler_daily_unparsed o w row s :
  select_settings (store w) = Some row →
  truthy_int (random_mode row) = false →
  notification_frequency row = Some "daily" →
  start_time row = Some s →
  length (split ":" s) ≠ 2%nat →
  (update_scheduler o w).1 = Raised ValueError ∧
  jobs (update_scheduler o w).2 = [].
Proof.
  intros Hrow Hr Hf Hs Hlen. unfold update_scheduler. run.
  rewrite Hrow. simpl. rewrite Hr.
  rewrite bool_decide_false by congruence. rewrite bool_decide_true by done.
  rewrite Hs. by destruct (split ":" s) as [|? [|? [|? ?]]].
Qed.


(** ** Frame lemmas *)

Lemma fk_violation_off ref d : fk_violation false ref d = false.
Proof. done. Qed.

Lemma update_settings_row_off fields d :
  update_settings_row false fields d
  = Returned (set_settings (alter (assign_all fields) 1 (settings d)) d).
Proof.
  unfold update_settings_row.
  assert (existsb (λ a, fk_violation false (assigned_reference a) d) fields
          = false) as ->.
  { by induction fields. }
  by rewrite andb_false_r.
Qed.

Lemma update_scheduler_store o w : store (update_scheduler o w).2 = store w.
Proof.
  unfold update_scheduler. run.
  destruct (select_settings (store w)) as [row|]; simpl; [|done].
  sched_cases row.
Qed.

Lemma update_scheduler_console o w : console (update_scheduler o w).2 = console w.
Proof.
  unfold update_scheduler. run.
  destruct (select_settings (store w)) as [row|]; simpl; [|done].
  sched_cases row.
Qed.

(** Each call of [update_scheduler] reads the settings row once. *)
Lemma update_scheduler_recomputes o w :
  recomputes (update_scheduler o w).2 = recomputes w ++ [select_settings (store w)].
Proof.
  unfold update_scheduler. run.
  destruct (select_settings (store w)) as [row|]; simpl; [|done].
  sched_cases row.
Qed.

Lemma truthy_int_bindable v : truthy_int v = false → bindable v = true.
Proof.
  destruct v as [n|]; [|done]. simpl. rewrite negb_false_iff.
  by intros ->%Z.eqb_eq.
Qed.

(** Of the values [update_settings] binds, only the active tweetbook id
    is an integer of the request. *)
Lemma update_fields_bindable data :
  forallb bindable (assigned_reference <$> update_fields data)
  = bindable (dict_get (b_active_tweetbook_id data)).
Proof.
  unfold update_fields.
  destruct (truthy_str (dict_get (b_notification_frequency data))),
    (truthy_int (dict_get (b_active_tweetbook_id data))) eqn:Ha,
    (truthy_str (dict_get (b_start_time data))),
    (truthy_str (dict_get (b_end_time data))),
    (dict_get (b_random_mode data)); simpl;
    rewrite ?andb_true_r, ?(truthy_int_bindable _ Ha); done.
Qed.

Lemma update_settings_eq o data w :
  update_settings o data w
  = match update_fields data with
    | [] => (Returned (JMessage "Settings updated successfully", 200), w)
    | fields =>
        if bindable (dict_get (b_active_tweetbook_id data)) then
          match update_scheduler o
                  {| store := set_settings
                                (alter (assign_all fields) 1 (settings (store w)))
                                (store w);
                     jobs := jobs w; open_conns := S (open_conns w);
                     console := console w; recomputes := recomputes w |} with
          | (Returned _, w') =>
              (Returned (JMessage "Settings updated successfully", 200),
               {| store := store w'; jobs := jobs w';
                  open_conns := pred (open_conns w');
                  console := console w'; recomputes := recomputes w' |})
          | (Raised e, w') => (Raised e, w')
          end
        else (Raised OverflowError, left_open w)
    end.
Proof.
  pose proof (update_fields_bindable data) as Hb.
  unfold update_settings. run.
  destruct (update_fields data) as [|a fields] eqn:E; [by destruct w|].
  rewrite Hb. destruct (bindable _); [|done].
  rewrite update_settings_row_off. simpl.
  by destruct (update_scheduler o _) as [[[]|e] w'].
Qed.

(** A patch whose active tweetbook id does not fit 64 bits raises before
    anything is written or recomputed. *)
Lemma update_settings_overflow o data w :
  bindable (dict_get (b_active_tweetbook_id data)) = false →
  update_settings o data w = (Raised OverflowError, left_open w).
Proof.
  intros Hb. rewrite update_settings_eq, Hb.
  destruct (update_fields data) eqn:E; [|done].
  unfold update_fields in E.
  destruct (truthy_int (dict_get (b_active_tweetbook_id data))) eqn:Ha.
  - by destruct (truthy_str (dict_get (b_notification_frequency data))).
  - by rewrite (truthy_int_bindable _ Ha) in Hb.
Qed.

Lemma update_settings_store o data w :
  store (update_settings o data w).2
  = if bindable (dict_get (b_active_tweetbook_id data)) then
      match update_fields data with
      | [] => store w
      | fields =>
          set_settings (alter (assign_all fields) 1 (settings (store w))) (store w)
      end
    else store w.
Proof.
  destruct (bindable (dict_get (b_active_tweetbook_id data))) eqn:Hb;
    [|by rewrite update_settings_overflow].
  rewrite update_settings_eq, Hb.
  destruct (update_fields data) as [|a fields] eqn:E; [done|].
  match goal with |- context [update_scheduler o ?w'] =>
    pose proof (update_scheduler_store o w') as Hs;
    destruct (update_scheduler o w') as [[[]|e] w''] end; simpl in *; by rewrite Hs.
Qed.

Lemma update_settings_recomputes o data w :
  recomputes (update_settings o data w).2
  = if bindable (dict_get (b_active_tweetbook_id data)) then
      match update_fields data with
      | [] => recomputes w
      | _ => recomputes w ++ [select_settings (store (update_settings o data w).2)]
      end
    else recomputes w.
Proof.
  rewrite update_settings_store.
  destruct (bindable (dict_get (b_active_tweetbook_id data))) eqn:Hb;
    [|by rewrite update_settings_overflow].
  rewrite update_settings_eq, Hb.
  destruct (update_fields data) as [|a fields] eqn:E; [done|].
  match goal with |- context [update_scheduler o ?w'] =>
    pose proof (update_scheduler_recomputes o w') as Hs;
    destruct (update_scheduler o w') as [[[]|e] w''] end; simpl in *; by rewrite Hs.
Qed.

(** ** Partial update of the settings *)





(** ** Initialization and start of the process *)

Lemma insert_default_settings_off d :
  insert_default_settings false d
  = Returned (if bool_decide (is_Some (settings d !! 1)) then d
              else set_settings (<[1 := default_settings]> (settings d)) d).
Proof. unfold insert_default_settings. by case_bool_decide. Qed.

Lemma init_db_eq o w :
  init_db o w
  = (Returned tt,
     {| store := db_after_init (now o) (store w); jobs := jobs w;
        open_conns := open_conns w; console := console w;
        recomputes := recomputes w |}).
Proof.
  unfold init_db, db_after_init. run.
  rewrite insert_default_settings_off. done.
Qed.

Lemma startup_recomputes o file :
  recomputes (startup o file).2 = [select_settings (db_after_init (now o) file)].
Proof.
  unfold startup, bind at 1. rewrite init_db_eq.
  by rewrite update_scheduler_recomputes.
Qed.

Lemma update_settings_nothing_applied o data w :
  update_fields data = [] →
  update_settings o data w
  = (Returned (JMessage "Settings updated successfully", 200), w).
Proof.
  intros E. unfold update_settings. run. rewrite E. by destruct w.
Qed.

(** C2, as the code has it.  Starting the process calls [update_scheduler]
    exactly once, on the settings row found after [init_db]: the default
    row when the database is new, the stored row otherwise.  A call of
    [update_settings] that applies at least one field, and so every call
    that changes the stored settings, calls it exactly once more, on the
    row just written.  A call that applies no field, as with an empty
    body, returns its message and leaves the whole state as it was: no
    recompute and no write.  (A body whose [active_tweetbook_id] does not
    fit 64 bits is the exception: its UPDATE raises [OverflowError] when
    the id is bound, so that nothing is written and nothing recomputed.) *)
Theorem recompute_invocations (o : oracle) (file : db) (w : world)
    (data : settings_body) :
  recomputes (startup o file).2 = [select_settings (db_after_init (now o) file)] ∧
  recomputes (startup o empty_db).2 = [Some default_settings] ∧
  (update_fields data ≠ [] →
   bindable (dict_get (b_active_tweetbook_id data)) = true →
     recomputes (update_settings o data w).2
     = recomputes w ++ [select_settings (store (update_settings o data w).2)]) ∧
  (store (update_settings o data w).2 ≠ store w → update_fields data ≠ []) ∧
  (update_fields data = [] →
     update_settings o data w
     = (Returned (JMessage "Settings updated successfully", 200), w)) ∧
  update_settings o no_settings w
  = (Returned (JMessage "Settings updated successfully", 200), w) ∧
  (bindable (dict_get (b_active_tweetbook_id data)) = false →
     update_settings o data w = (Raised OverflowError, left_open w)).
Proof.
  refine (conj _ (conj _ (conj _ (conj _ (conj _ (conj _ _)))))).
  - apply startup_recomputes.
  - by rewrite startup_recomputes.
  - intros Hne Hb. rewrite update_settings_recomputes, Hb.
    by destruct (update_fields data).
  - intros Hchanged E. apply Hchanged. rewrite update_settings_store, E.
    by destruct (bindable _).
  - apply update_settings_nothing_applied.
  - by apply update_settings_nothing_applied.
  - apply update_settings_overflow.
Qed.

Lemma recompute_invocations_witness :
  recomputes (update_settings sample_oracle (only_random_mode false) first_run).2
  = [Some default_settings;
     Some {| notification_frequency := Some "hourly";
             active_tweetbook_id := Some 1;
             start_time := Some "09:00"; end_time := Some "17:00";
             random_mode := Some 0 |}] ∧
  update_settings sample_oracle no_settings first_run
  = (Returned (JMessage "Settings updated successfully", 200), first_run).
Proof.
  destruct (recompute_invocations sample_oracle empty_db first_run
              (only_random_mode false)) as (_ & _ & Happlied & _).
  destruct (recompute_invocations sample_oracle empty_db first_run
              no_settings) as (_ & _ & _ & _ & Hnone & _).
  split.
  - exact (Happlied ltac:(discriminate) eq_refl).
  - exact (Hnone eq_refl).
Defined.

(** C2 as stated fails: a start of the process does not always
    recompute against the default settings.  [daily_run] is a state the
    process reaches; started again on the database it left, the process
    recomputes from the daily settings stored there. *)
Lemma startup_not_against_defaults :
  ¬ (∀ (o : oracle) (w : world),
       reachable w →
       recomputes (startup o (store w)).2 = [Some default_settings]).
Proof.
  intros Hclaim. specialize (Hclaim sample_oracle daily_run).
  assert (reachable daily_run) as Hreach.
  { apply (reachable_serve sample_oracle (UpdateSettings (daily_at "09:30"))).
    apply reachable_start. }
  specialize (Hclaim Hreach). vm_compute in Hclaim. discriminate Hclaim.
Qed.

(** ** Random selection *)

Lemma order_by_random_limit_1_nil {A} r : order_by_random_limit_1 r (@nil A) = None.
Proof. unfold order_by_random_limit_1. by rewrite lookup_nil. Qed.

Lemma order_by_random_limit_1_is_Some {A} r (rows : list A) :
  rows ≠ [] → is_Some (order_by_random_limit_1 r rows).
Proof.
  intros Hne. apply lookup_lt_is_Some_2.
  apply Nat.mod_upper_bound. by destruct rows.
Qed.

Lemma get_random_tweet_eq o tb w :
  get_random_tweet o tb w
  = if bindable tb then
      match order_by_random_limit_1 (rnd o) (candidates tb (store w)) with
      | Some (id, row) =>
          (Returned (Some (dict_of id row)),
           {| store := update_last_shown (now o) id (store w); jobs := jobs w;
              open_conns := S (open_conns w); console := console w;
              recomputes := recomputes w |})
      | None => (Returned None, w)
      end
    else (Raised OverflowError, left_open w).
Proof.
  unfold get_random_tweet, candidates. run.
  destruct (truthy_int tb) eqn:Htb; run.
  - rewrite andb_true_r. destruct (bindable tb); [|done].
    unfold select_random_tweet_in.
    destruct (order_by_random_limit_1 _ _) as [[id row]|]; [done|by destruct w].
  - rewrite (truthy_int_bindable _ Htb). unfold select_random_tweet.
    destruct (order_by_random_limit_1 _ _) as [[id row]|]; [done|by destruct w].
Qed.

Lemma get_random_tweet_found o tb w id row :
  bindable tb = true →
  order_by_random_limit_1 (rnd o) (candidates tb (store w)) = Some (id, row) →
  get_random_tweet o tb w
  = (Returned (Some (dict_of id row)),
     {| store := update_last_shown (now o) id (store w); jobs := jobs w;
        open_conns := S (open_conns w); console := console w;
        recomputes := recomputes w |}).
Proof. intros Hb Hpick. by rewrite get_random_tweet_eq, Hb, Hpick. Qed.

Lemma get_random_tweet_none o tb w :
  bindable tb = true →
  order_by_random_limit_1 (rnd o) (candidates tb (store w)) = None →
  get_random_tweet o tb w = (Returned None, w).
Proof. intros Hb Hpick. by rewrite get_random_tweet_eq, Hb, Hpick. Qed.

(** A filter that does not fit 64 bits: the SELECT raises and the
    connection stays open. *)
Lemma get_random_tweet_overflow o tb w :
  bindable tb = false →
  get_random_tweet o tb w = (Raised OverflowError, left_open w).
Proof. intros Hb. by rewrite get_random_tweet_eq, Hb. Qed.

Lemma elem_of_candidates tb d id row :
  (id, row) ∈ candidates tb d →
  tweets d !! id = Some row ∧ (truthy_int tb = true → tweetbook_id row = tb).
Proof.
  unfold candidates, rows_of_tweetbook.
  destruct (truthy_int tb) eqn:Htb; [destruct tb as [k|]; [|done]|].
  - rewrite list_elem_of_filter, elem_of_map_to_list. simpl. by intros [-> ->].
  - rewrite elem_of_map_to_list. by intros ->.
Qed.

Lemma NoDup_candidates tb d : NoDup (candidates tb d).*1.
Proof.
  unfold candidates, rows_of_tweetbook.
  destruct (truthy_int tb); [destruct tb|]; simpl.
  - eapply sublist_NoDup; [apply (NoDup_fst_map_to_list (tweets d))|].
    apply fmap_sublist, sublist_filter.
  - constructor.
  - apply (NoDup_fst_map_to_list (tweets d)).
Qed.

Example two_tweets_rows :
  map_to_list (tweets (store two_tweets))
  = [(2, {| tweet_id := "T2"; content := "hi"; author := "a";
            tweetbook_id := Some 1; created_at := 1000; last_shown := None |});
     (1, {| tweet_id := "T1"; content := "hi"; author := "a";
            tweetbook_id := Some 0; created_at := 1000; last_shown := None |})].
Proof. vm_compute. reflexivity. Qed.

Lemma alter_as_insert {A} (f : A → A) (m : gmap Z A) k x :
  m !! k = Some x → alter f k m = <[k := f x]> m.
Proof.
  intros Hk. apply map_eq. intros j. destruct (decide (j = k)) as [->|].
  - by rewrite lookup_alter_eq, lookup_insert_eq, Hk.
  - by rewrite lookup_alter_ne, lookup_insert_ne.
Qed.

Lemma get_random_tweet_store o tb w :
  store (get_random_tweet o tb w).2 = store w ∨
  ∃ id, store (get_random_tweet o tb w).2 = update_last_shown (now o) id (store w).
Proof.
  rewrite get_random_tweet_eq. destruct (bindable tb); [|by left].
  destruct (order_by_random_limit_1 (rnd o) (candidates tb (store w)))
    as [[id row]|] eqn:Hpick; [right; by exists id|by left].
Qed.

(** Every candidate is the answer to some draw. *)
Lemma every_candidate_drawn {A} (rows : list A) (x : A) :
  x ∈ rows → ∃ r, order_by_random_limit_1 r rows = Some x.
Proof.
  intros [i Hi]%list_elem_of_lookup_1. exists i.
  unfold order_by_random_limit_1.
  rewrite Nat.mod_small; [done|]. by eapply lookup_lt_Some.
Qed.

(** C4, as the code has it.  The candidates are the tweets of the given
    tweetbook when a non-zero id is given, and all tweets when no id or
    the id 0 is given.  When there is a candidate, [get_random_tweet]
    returns the one the random draw selects, each candidate standing at
    exactly one position of the draw; that tweet is a row of the store and,
    under a non-zero filter, carries the filter as its [tweetbook_id].
    The only change to the store is that this row's [last_shown] becomes
    the current time, and after any later call at a later time it is still
    set and not earlier.  (The filter is one that fits 64 bits, as is the
    [tweetbook_id] of every row a database holds.) *)
Theorem get_random_tweet_selects (o o' : oracle) (w : world) (tb tb' : option Z) :
  candidates tb (store w) ≠ [] →
  now o ≤ now o' →
  bindable tb = true →
  ∃ id row,
    candidates tb (store w) !! (rnd o `mod` length (candidates tb (store w)))%nat
      = Some (id, row) ∧
    NoDup (candidates tb (store w)).*1 ∧
    tweets (store w) !! id = Some row ∧
    (truthy_int tb = true → tweetbook_id row = tb) ∧
    (get_random_tweet o tb w).1 = Returned (Some (dict_of id row)) ∧
    store (get_random_tweet o tb w).2
      = set_tweets (<[id := set_last_shown (now o) row]> (tweets (store w)))
                   (tweets_seq (store w)) (store w) ∧
    ∃ row' t,
      tweets (store (get_random_tweet o' tb' (get_random_tweet o tb w).2).2) !! id
        = Some row' ∧
      last_shown row' = Some t ∧ now o ≤ t.
Proof.
  intros Hne Hclock Hb.
  destruct (order_by_random_limit_1_is_Some (rnd o) _ Hne) as [[id row] Hpick].
  exists id, row.
  pose proof (list_elem_of_lookup_2 _ _ _ Hpick) as Hin.
  apply elem_of_candidates in Hin as [Hrow Htb].
  rewrite (get_random_tweet_found _ _ _ _ _ Hb Hpick). cbn [fst snd store].
  assert (update_last_shown (now o) id (store w)
          = set_tweets (<[id := set_last_shown (now o) row]> (tweets (store w)))
                       (tweets_seq (store w)) (store w)) as Hstore.
  { unfold update_last_shown. by rewrite (alter_as_insert _ _ _ _ Hrow). }
  refine (conj Hpick (conj (NoDup_candidates _ _) (conj Hrow (conj Htb
            (conj eq_refl (conj Hstore _)))))).
  match goal with |- context [get_random_tweet o' tb' ?w1] =>
    destruct (get_random_tweet_store o' tb' w1) as [->|[id' ->]] end;
    cbn [fst snd store]; rewrite Hstore; simpl.
  - rewrite lookup_insert_eq. by eexists _, _.
  - destruct (decide (id' = id)) as [->|Hid].
    + rewrite lookup_alter_eq, lookup_insert_eq. simpl. by eexists _, _.
    + rewrite lookup_alter_ne, lookup_insert_eq by done. by eexists _, _.
Qed.

Lemma get_random_tweet_selects_witness :
  ∃ id row,
    tweets (store two_tweets) !! id = Some row ∧
    tweetbook_id row = Some 1 ∧
    (get_random_tweet sample_oracle (Some 1) two_tweets).1
    = Returned (Some (dict_of id row)).
Proof.
  destruct (get_random_tweet_selects sample_oracle later_oracle two_tweets
              (Some 1) None ltac:(vm_compute; discriminate) ltac:(simpl; lia)
              eq_refl)
    as (id & row & _ & _ & Hrow & Htb & Hret & _).
  exists id, row. split; [exact Hrow|]. split; [exact (Htb eq_refl) | exact Hret].
Defined.

(** C4 as stated fails: the returned tweet need not carry the supplied
    filter.  In [two_tweets] one tweet has [tweetbook_id] 0 and one has 1;
    [get_random_tweet(0)] with the draw of [later_oracle] returns the tweet
    of tweetbook 1. *)
Lemma get_random_tweet_zero_filter :
  ¬ (∀ (o : oracle) (w : world) (k : Z) (t : tweet_dict),
       rows_of_tweetbook (Some k) (store w) ≠ [] →
       (get_random_tweet o (Some k) w).1 = Returned (Some t) →
       ∃ row, tweets (store w) !! d_id t = Some row ∧ tweetbook_id row = Some k).
Proof.
  intros Hclaim.
  destruct (Hclaim later_oracle two_tweets 0 _
              ltac:(vm_compute; discriminate) eq_refl) as (row & Hrow & Htb).
  vm_compute in Hrow. injection Hrow as <-. discriminate Htb.
Qed.

(** ** What the handlers change *)

Lemma max_rowid_bound {A} (m : gmap Z A) :
  0 ≤ max_rowid m ∧ ∀ k, is_Some (m !! k) → k ≤ max_rowid m.
Proof.
  unfold max_rowid.
  apply (map_fold_weak_ind (λ r m, 0 ≤ r ∧ ∀ k, is_Some (m !! k) → k ≤ r)).
  - split; [done|]. intros k. rewrite lookup_empty. by intros [? ?].
  - intros i x m' r _ [Hr Hk]. split; [lia|].
    intros k. destruct (decide (k = i)) as [->|Hne].
    + lia.
    + rewrite lookup_insert_ne by done. intros Hs. specialize (Hk _ Hs). lia.
Qed.

Lemma next_rowid_fresh {A} seq (m : gmap Z A) :
  1 ≤ next_rowid seq m ∧ m !! next_rowid seq m = None.
Proof.
  unfold next_rowid. destruct (max_rowid_bound m) as [H0 Hk]. split; [lia|].
  destruct (m !! (Z.max seq (max_rowid m) + 1)) eqn:E; [|done].
  specialize (Hk _ (mk_is_Some _ _ E)). lia.
Qed.

Lemma show_tweet_notification_no_row o w :
  select_settings (store w) = None → show_tweet_notification o w = (Returned None, w).
Proof.
  intros Hrow. unfold show_tweet_notification. run. rewrite Hrow. simpl.
  by destruct w.
Qed.

Lemma show_tweet_notification_eq o w :
  show_tweet_notification o w
  = match select_settings (store w) with
    | Some row =>
        if bindable (active_tweetbook_id row) then
          match order_by_random_limit_1 (rnd o)
                  (candidates (active_tweetbook_id row) (store w)) with
          | Some (id, t) =>
              (Returned (Some (dict_of id t)),
               {| store := update_last_shown (now o) id (store w); jobs := jobs w;
                  open_conns := S (S (open_conns w));
                  console := console w
                    ++ ["NOTIFICATION: Tweet by " +:+ author t +:+ ": "
                        +:+ content t];
                  recomputes := recomputes w |})
          | None => (Returned None, w)
          end
        else (Raised OverflowError, left_open (left_open w))
    | None => (Returned None, w)
    end.
Proof.
  unfold show_tweet_notification. run.
  destruct (select_settings (store w)) as [row|]; simpl; [|by destruct w].
  rewrite get_random_tweet_eq. destruct (bindable _); [|done].
  cbn [store]. destruct (order_by_random_limit_1 _ _) as [[id t]|]; simpl;
    [done|by destruct w].
Qed.



Lemma show_tweet_notification_store o w :
  store (show_tweet_notification o w).2 = store w ∨
  ∃ id, store (show_tweet_notification o w).2
        = update_last_shown (now o) id (store w).
Proof.
  rewrite show_tweet_notification_eq.
  destruct (select_settings (store w)) as [row|]; [|by left].
  destruct (bindable _); [|by left].
  destruct (order_by_random_limit_1 _ _) as [[id t]|]; [right; by exists id|by left].
Qed.

(** What the two inserting handlers do, statement by statement. *)
Lemma create_tweetbook_eq o data w :
  create_tweetbook o data w
  = if truthy_str (dict_get (b_name data)) then
      match insert_tweetbook (now o) (dict_get (b_name data))
              (dict_get_default (b_description data) "") (store w) with
      | Returned (id, d) =>
          (Returned (JTweetbook id (dict_get (b_name data))
                       (dict_get_default (b_description data) ""), 201),
           with_store d w)
      | Raised IntegrityError =>
          (Returned (JError "A tweetbook with this name already exists", 400), w)
      | Raised e => (Raised e, left_open w)
      end
    else (Returned (JError "Tweetbook name is required", 400), w).
Proof.
  unfold create_tweetbook. destruct (truthy_str _); simpl; [|done]. run.
  unfold insert_tweetbook.
  destruct (table_full _ _); simpl; [done|].
  destruct (dict_get (b_name data)) as [n|]; simpl; [|by destruct w].
  destruct (name_taken n (tweetbooks (store w))); simpl; [by destruct w|done].
Qed.

Lemma save_tweet_eq o data w :
  save_tweet o data w
  = if truthy_str (dict_get (b_tweet_id data))
       && truthy_str (dict_get (b_content data))
       && truthy_str (dict_get (b_author data)) then
      if bindable (dict_get_default (b_tweetbook_id data) 1) then
        match insert_tweet false (now o) (dict_get (b_tweet_id data))
                (dict_get (b_content data)) (dict_get (b_author data))
                (dict_get_default (b_tweetbook_id data) 1) (store w) with
        | Returned (id, d) =>
            (Returned (JSavedTweet id (dict_get (b_tweet_id data))
                         (dict_get (b_content data)) (dict_get (b_author data))
                         (dict_get_default (b_tweetbook_id data) 1), 201),
             with_store d w)
        | Raised IntegrityError =>
            (Returned (JError "This tweet has already been saved", 400), w)
        | Raised e => (Raised e, left_open w)
        end
      else (Raised OverflowError, left_open w)
    else (Returned (JError "Tweet ID, content, and author are required", 400), w).
Proof.
  unfold save_tweet. destruct (_ && _); simpl; [|done]. run.
  rewrite andb_true_r. destruct (bindable _); [|done].
  unfold insert_tweet.
  destruct (table_full _ _); simpl; [done|].
  destruct (dict_get (b_tweet_id data)), (dict_get (b_content data)),
    (dict_get (b_author data)); simpl; try (by destruct w).
  destruct (tweet_id_taken _ _); simpl; [by destruct w|done].
Qed.

(** The rows and the key sequence an INSERT leaves. *)
Lemma insert_tweetbook_Returned now n descr d id d' :
  insert_tweetbook now n descr d = Returned (id, d') →
  ∃ n', n = Some n' ∧ name_taken n' (tweetbooks d) = false ∧
        table_full (tweetbooks_seq d) (tweetbooks d) = false ∧
        id = next_rowid (tweetbooks_seq d) (tweetbooks d) ∧
        d' = set_tweetbooks
               (<[id := {| name := n'; description := descr;
                           tb_created_at := now |}]> (tweetbooks d)) id d.
Proof.
  unfold insert_tweetbook. destruct (table_full _ _) eqn:Hfull; [done|].
  destruct n as [n'|]; [|done].
  destruct (name_taken _ _) eqn:Hn; [done|]. intros [= <- <-]. by exists n'.
Qed.

Lemma insert_tweet_Returned now tid cont auth tb d id d' :
  insert_tweet false now tid cont auth tb d = Returned (id, d') →
  ∃ tid' cont' auth',
    tid = Some tid' ∧ cont = Some cont' ∧ auth = Some auth' ∧
    tweet_id_taken tid' (tweets d) = false ∧
    table_full (tweets_seq d) (tweets d) = false ∧
    id = next_rowid (tweets_seq d) (tweets d) ∧
    d' = set_tweets
           (<[id := {| tweet_id := tid'; content := cont'; author := auth';
                       tweetbook_id := tb; created_at := now;
                       last_shown := None |}]> (tweets d)) id d.
Proof.
  unfold insert_tweet. destruct (table_full _ _) eqn:Hfull; [done|].
  destruct tid as [tid'|], cont as [cont'|], auth as [auth'|]; try done.
  destruct (tweet_id_taken _ _) eqn:Hn; [done|]. simpl.
  intros [= <- <-]. by exists tid', cont', auth'.
Qed.

Lemma delete_tweet_eq id w :
  delete_tweet id w
  = if int64 id then
      match tweets (store w) !! id with
      | Some _ =>
          (Returned (JMessage "Tweet deleted successfully", 200),
           with_store (set_tweets (delete id (tweets (store w)))
                                  (tweets_seq (store w)) (store w)) w)
      | None => (Returned (JError "Tweet not found", 404), w)
      end
    else (Raised OverflowError, left_open w).
Proof.
  unfold delete_tweet, delete_tweet_row. run.
  rewrite andb_true_r. destruct (int64 id); [|done].
  destruct (tweets (store w) !! id); simpl; [done|by destruct w].
Qed.

Lemma get_settings_eq w :
  get_settings w
  = match select_settings_join (store w) with
    | Some v => (Returned (JSettings v, 200), w)
    | None => (Raised TypeError, left_open w)
    end.
Proof.
  unfold get_settings. run.
  destruct (select_settings_join (store w)); simpl; [by destruct w|done].
Qed.

Lemma get_random_tweet_endpoint_eq o arg w :
  get_random_tweet_endpoint o arg w
  = match arg with
    | ArgNotInt => (Returned (JError "Invalid tweetbook ID", 400), w)
    | _ =>
        let tb := match arg with ArgInt n => Some n | _ => None end in
        if bindable tb then
          match order_by_random_limit_1 (rnd o) (candidates tb (store w)) with
          | Some (id, row) =>
              (Returned (JTweet (dict_of id row), 200),
               {| store := update_last_shown (now o) id (store w); jobs := jobs w;
                  open_conns := S (open_conns w); console := console w;
                  recomputes := recomputes w |})
          | None => (Returned (JError "No tweets found", 404), w)
          end
        else (Raised OverflowError, left_open w)
    end.
Proof.
  unfold get_random_tweet_endpoint.
  destruct arg; try done; simpl; unfold bind; rewrite get_random_tweet_eq;
    simpl; try destruct (int64 n); try done;
    by destruct (order_by_random_limit_1 _ _) as [[id row]|].
Qed.

Lemma get_random_tweet_endpoint_store o arg w :
  store (get_random_tweet_endpoint o arg w).2 = store w ∨
  ∃ id, store (get_random_tweet_endpoint o arg w).2
        = update_last_shown (now o) id (store w).
Proof.
  rewrite get_random_tweet_endpoint_eq.
  destruct arg; try (by left); simpl; try destruct (int64 n); try (by left);
    (destruct (order_by_random_limit_1 _ _) as [[id row]|];
       [right; by exists id|by left]).
Qed.

Create HintDb changes.
#[local] Hint Constructors db_change : changes.

Lemma set_last_shown_change now id d : db_change d (update_last_shown now id d).
Proof. unfold update_last_shown. auto with changes. Qed.
#[local] Hint Resolve set_last_shown_change : changes.

Ltac changed :=
  unfold with_store, left_open; cbn [fst snd store]; solve [auto with changes].

Lemma serve_change o r w : db_change (store w) (store (serve o r w)).
Proof.
  destruct r as [data|data| |data|arg|id|]; simpl.
  - rewrite create_tweetbook_eq. destruct (truthy_str _); [|changed].
    destruct (insert_tweetbook _ _ _ _) as [[k d]|e] eqn:E;
      [|destruct e; changed].
    apply insert_tweetbook_Returned in E as (n & _ & Hn & Hfull & -> & ->).
    changed.
  - rewrite save_tweet_eq. destruct (_ && _); [|changed].
    destruct (bindable _); [|changed].
    destruct (insert_tweet _ _ _ _ _ _ _) as [[k d]|e] eqn:E;
      [|destruct e; changed].
    apply insert_tweet_Returned in E as (? & ? & ? & _ & _ & _ & _ & _ & _ & ->).
    changed.
  - rewrite get_settings_eq.
    destruct (select_settings_join (store w)); simpl; changed.
  - rewrite update_settings_store.
    destruct (bindable _), (update_fields data); changed.
  - destruct (get_random_tweet_endpoint_store o arg w) as [->|[k ->]]; changed.
  - rewrite delete_tweet_eq. destruct (int64 id); [|changed].
    destruct (tweets (store w) !! id); simpl; changed.
  - destruct (show_tweet_notification_store o w) as [->|[k ->]]; changed.
Qed.

(** ** Databases the program wrote *)

Lemma db_after_init_empty now :
  db_after_init now empty_db
  = {| tweetbooks := {[1 := default_tweetbook now]}; tweetbooks_seq := 1;
       tweets := ∅; tweets_seq := 0;
       settings := {[1 := default_settings]} |}.
Proof. reflexivity. Qed.

Lemma written_empty now : written_by_program (db_after_init now empty_db).
Proof.
  rewrite db_after_init_empty. unfold written_by_program. simpl.
  refine (conj _ (conj _ (conj _ _))).
  - intros k [t Hk]. apply lookup_singleton_Some in Hk. unfold last_rowid. lia.
  - eexists. by rewrite lookup_singleton_eq.
  - intros k1 k2 t1 t2 [<- _]%lookup_singleton_Some [<- _]%lookup_singleton_Some _.
    done.
  - intros k. split.
    + intros [t Hk]. apply lookup_singleton_Some in Hk. by destruct Hk.
    + intros ->. by rewrite lookup_singleton_eq.
Qed.

Lemma db_after_init_written now d :
  written_by_program d → db_after_init now d = d.
Proof.
  intros (_ & (t & Ht & _) & _ & Hs).
  unfold db_after_init, insert_default_tweetbook.
  rewrite bool_decide_true by (by rewrite Ht). simpl.
  rewrite insert_default_settings_off.
  rewrite bool_decide_true; [done|]. by apply Hs.
Qed.

Lemma table_full_false {A} seq (m : gmap Z A) :
  table_full seq m = false ↔ next_rowid seq m ≤ last_rowid.
Proof. unfold table_full. by rewrite Z.ltb_ge. Qed.

Lemma db_change_written d d' :
  db_change d d' → written_by_program d → written_by_program d'.
Proof.
  intros Hc (Hpos & Hdef & Huniq & Hset).
  destruct Hc as [|m s|f|n descr t Hn Hfull].
  - done.
  - done.
  - refine (conj Hpos (conj Hdef (conj Huniq _))). simpl. intros k.
    rewrite <- Hset. destruct (decide (k = 1)) as [->|].
    + rewrite lookup_alter_eq. by rewrite fmap_is_Some.
    + by rewrite lookup_alter_ne.
  - destruct (next_rowid_fresh (tweetbooks_seq d) (tweetbooks d)) as [Hge Hfresh].
    apply table_full_false in Hfull.
    set (id := next_rowid (tweetbooks_seq d) (tweetbooks d)) in *.
    apply bool_decide_eq_false in Hn.
    refine (conj _ (conj _ (conj _ Hset))); simpl.
    + intros k. destruct (decide (k = id)) as [->|]; [done|].
      rewrite lookup_insert_ne by done. apply Hpos.
    + destruct Hdef as (t1 & Ht1 & Hname). exists t1. split; [|done].
      rewrite lookup_insert_ne; [done|]. intros ->. congruence.
    + intros k1 k2 t1 t2.
      destruct (decide (k1 = id)) as [->|H1], (decide (k2 = id)) as [->|H2];
        rewrite ?lookup_insert_eq, ?lookup_insert_ne by done; try done.
      * intros [= <-] H2' Hnm. simpl in Hnm. destruct Hn.
        apply (map_Exists_lookup_2 _ _ k2 t2); [done|]. by simpl.
      * intros H1' [= <-] Hnm. simpl in Hnm. destruct Hn.
        apply (map_Exists_lookup_2 _ _ k1 t1); [done|]. by simpl.
      * apply Huniq.
Qed.

Lemma startup_store o file : store (startup o file).2 = db_after_init (now o) file.
Proof.
  unfold startup, bind at 1. rewrite init_db_eq.
  by rewrite update_scheduler_store.
Qed.

Lemma reachable_written w : reachable w → written_by_program (store w).
Proof.
  induction 1 as [o|o r w _ IH|o w _ IH].
  - rewrite startup_store. apply written_empty.
  - eapply db_change_written; [apply serve_change|done].
  - rewrite startup_store. by rewrite db_after_init_written.
Qed.

(** C5.  With nothing to select from, [get_random_tweet] returns [None]
    and leaves the whole state, the store included, exactly as it was.
    That is so whenever the rows its SELECT ranges over are none; in
    particular for every tweetbook of a running process that holds no
    tweet, and for a store without tweets when no filter is given.  (A
    filter given in the first, general case is an id that fits 64 bits,
    as every id a database holds does.) *)
Theorem get_random_tweet_nothing_to_select (o : oracle) (w : world)
    (tb : option Z) (k : Z) :
  (candidates tb (store w) = [] → bindable tb = true →
   get_random_tweet o tb w = (Returned None, w)) ∧
  (reachable w → is_Some (tweetbooks (store w) !! k) →
   (∀ id row, tweets (store w) !! id = Some row → tweetbook_id row ≠ Some k) →
   get_random_tweet o (Some k) w = (Returned None, w)) ∧
  (tweets (store w) = ∅ → get_random_tweet o None w = (Returned None, w)).
Proof.
  assert (∀ tb, candidates tb (store w) = [] → bindable tb = true →
                get_random_tweet o tb w = (Returned None, w)) as Hempty.
  { intros tb0 E Hb. apply get_random_tweet_none; [done|]. rewrite E.
    apply order_by_random_limit_1_nil. }
  refine (conj (Hempty tb) (conj _ _)).
  - intros Hreach Hk Hnone.
    destruct (reachable_written _ Hreach) as (Hpos & _).
    specialize (Hpos _ Hk).
    apply Hempty;
      [|unfold bindable, int64, last_rowid in *;
        apply andb_true_iff; rewrite Z.leb_le, Z.ltb_lt; lia].
    unfold candidates. simpl. rewrite (proj2 (Z.eqb_neq k 0)) by lia. simpl.
    unfold rows_of_tweetbook.
    destruct (filter _ _) as [|[id row] rest] eqn:E; [done|].
    assert ((id, row) ∈ filter (λ r : Z * tweet, tweetbook_id r.2 = Some k)
                          (map_to_list (tweets (store w)))) as Hin.
    { rewrite E. apply list_elem_of_here. }
    apply list_elem_of_filter in Hin as [Htb Hin].
    apply elem_of_map_to_list in Hin. by destruct (Hnone _ _ Hin).
  - intros E. apply Hempty; [|done]. unfold candidates. simpl. rewrite E.
    apply map_to_list_empty.
Qed.

Lemma get_random_tweet_nothing_to_select_witness :
  get_random_tweet sample_oracle (Some 2) with_jokes = (Returned None, with_jokes).
Proof.
  destruct (get_random_tweet_nothing_to_select sample_oracle with_jokes None 2)
    as (_ & Hbook & _).
  apply Hbook.
  - unfold with_jokes, two_tweets, first_run. repeat apply reachable_serve.
    apply reachable_start.
  - vm_compute. by eexists.
  - intros id row Hrow%elem_of_map_to_list. vm_compute in Hrow.
    inversion Hrow as [|? ? ? Hrow']; subst; [discriminate|].
    inversion Hrow' as [|? ? ? Hrow'']; subst; [discriminate|].
    inversion Hrow''.
Defined.

(** ** Idempotent initialization *)

Lemma db_after_init_idempotent now now' d :
  db_after_init now' (db_after_init now d) = db_after_init now d.
Proof.
  unfold db_after_init. rewrite !insert_default_settings_off.
  set (d1 := insert_default_tweetbook now d).
  assert (insert_default_tweetbook now' d1 = d1) as Hd1.
  { unfold d1, insert_default_tweetbook.
    destruct (bool_decide (is_Some (tweetbooks d !! 1))
              || name_taken "Default" (tweetbooks d)) eqn:G.
    - by rewrite G.
    - simpl. rewrite lookup_insert_eq. by rewrite bool_decide_true. }
  clearbody d1.
  destruct (bool_decide (is_Some (settings d1 !! 1))) eqn:G.
  - rewrite Hd1. by rewrite G.
  - assert (insert_default_tweetbook now'
              (set_settings (<[1:=default_settings]> (settings d1)) d1)
            = set_settings (<[1:=default_settings]> (settings d1)) d1) as ->.
    { unfold insert_default_tweetbook in Hd1 |- *. simpl.
      destruct (bool_decide (is_Some (tweetbooks d1 !! 1))
                || name_taken "Default" (tweetbooks d1)) eqn:G1; [done|].
      exfalso.
      apply (f_equal (λ x, tweetbooks x !! 1)) in Hd1. simpl in Hd1.
      rewrite lookup_insert_eq in Hd1.
      apply orb_false_iff in G1 as [G1 _]. apply bool_decide_eq_false in G1.
      apply G1. by rewrite <- Hd1. }
    simpl. rewrite lookup_insert_eq. by rewrite bool_decide_true.
Qed.

Lemma db_after_init_keeps_rows now d :
  (∀ k t, tweetbooks d !! k = Some t → tweetbooks (db_after_init now d) !! k = Some t) ∧
  tweets (db_after_init now d) = tweets d ∧
  (∀ k s, settings d !! k = Some s → settings (db_after_init now d) !! k = Some s).
Proof.
  unfold db_after_init. rewrite insert_default_settings_off.
  set (d1 := insert_default_tweetbook now d).
  assert ((∀ k t, tweetbooks d !! k = Some t → tweetbooks d1 !! k = Some t) ∧
          tweets d1 = tweets d ∧ settings d1 = settings d) as (Hb & Ht & Hs).
  { unfold d1, insert_default_tweetbook.
    destruct (bool_decide (is_Some (tweetbooks d !! 1))
              || name_taken "Default" (tweetbooks d)) eqn:G; [done|].
    apply orb_false_iff in G as [G _]. apply bool_decide_eq_false in G.
    simpl. refine (conj _ (conj eq_refl eq_refl)).
    intros k t Hk. rewrite lookup_insert_ne; [done|]. intros <-. apply G. by eexists. }
  clearbody d1.
  destruct (bool_decide (is_Some (settings d1 !! 1))) eqn:G2.
  - refine (conj Hb (conj Ht _)). by rewrite Hs.
  - apply bool_decide_eq_false in G2. simpl. refine (conj Hb (conj Ht _)).
    intros k s Hk. rewrite lookup_insert_ne; [by rewrite Hs|].
    intros <-. apply G2. rewrite Hs. by eexists.
Qed.

(** C10.  [init_db] returns, and running it again leaves the state it
    produced exactly as it is.  It never changes an existing row.  On a
    new database it leaves exactly the Default tweetbook under id 1 and
    exactly the default settings row under id 1; on the database of a
    running process too, afterwards the one tweetbook named Default is
    row 1 and the settings table holds row 1 alone. *)
Theorem init_db_idempotent (o o' : oracle) (w : world) :
  let once := (init_db o w).2 in
  (init_db o w).1 = Returned tt ∧
  init_db o' once = (Returned tt, once) ∧
  (∀ k t, tweetbooks (store w) !! k = Some t →
          tweetbooks (store once) !! k = Some t) ∧
  tweets (store once) = tweets (store w) ∧
  (∀ k s, settings (store w) !! k = Some s → settings (store once) !! k = Some s) ∧
  (store w = empty_db ∨ reachable w →
     (∃ t, tweetbooks (store once) !! 1 = Some t ∧ name t = "Default") ∧
     (∀ k t, tweetbooks (store once) !! k = Some t → name t = "Default" → k = 1) ∧
     (∀ k, is_Some (settings (store once) !! k) ↔ k = 1)) ∧
  (store w = empty_db →
     tweetbooks (store once) = {[1 := default_tweetbook (now o)]} ∧
     settings (store once) = {[1 := default_settings]}).
Proof.
  intros once. subst once. rewrite !init_db_eq. cbn [fst snd store].
  destruct (db_after_init_keeps_rows (now o) (store w)) as (Hb & Ht & Hs).
  refine (conj eq_refl (conj _ (conj Hb (conj Ht (conj Hs (conj _ _)))))).
  - simpl. by rewrite db_after_init_idempotent.
  - intros Hw.
    assert (written_by_program (db_after_init (now o) (store w)))
      as (_ & (t1 & Ht1 & Hn1) & Huniq & Hset).
    { destruct Hw as [->|Hreach]; [apply written_empty|].
      rewrite db_after_init_written; by apply reachable_written. }
    refine (conj _ (conj _ Hset)); [by exists t1|].
    intros k t Hk Hn. apply (Huniq k 1 t t1 Hk Ht1). by rewrite Hn, Hn1.
  - intros ->. by rewrite db_after_init_empty.
Qed.

Lemma init_db_idempotent_witness :
  let twice :=
    (init_db later_oracle (init_db sample_oracle (fresh_process empty_db)).2).2 in
  tweetbooks (store twice) = {[1 := default_tweetbook 1000]} ∧
  settings (store twice) = {[1 := default_settings]} ∧
  ∀ k, is_Some (settings (store twice) !! k) ↔ k = 1.
Proof.
  destruct (init_db_idempotent sample_oracle later_oracle
              (fresh_process empty_db))
    as (_ & Htwice & _ & _ & _ & Hone & Hfirst).
  intros twice. subst twice. rewrite Htwice.
  destruct (Hfirst eq_refl) as [Hbooks Hsettings].
  destruct (Hone (or_introl eq_refl)) as (_ & _ & Hrows).
  exact (conj Hbooks (conj Hsettings Hrows)).
Defined.

(** ** The notification producer *)

(** C7, as the code has it.  [show_tweet_notification] does nothing at
    all when the settings row itself is missing.  When the row exists it
    calls [get_random_tweet] with the row's [active_tweetbook_id], also
    when that id is NULL or 0, which selects among all tweets: a tweet that
    comes back is printed to the console and returned, with the store as
    [get_random_tweet] left it, and when none comes back nothing further
    happens and the state is unchanged.  ([get_random_tweet] raises only
    on an id that does not fit 64 bits, which no database holds; the
    producer then raises the same, its own connection open too.) *)
Theorem show_tweet_notification_behaviour (o : oracle) (w : world) :
  (select_settings (store w) = None →
     show_tweet_notification o w = (Returned None, w)) ∧
  (∀ row, select_settings (store w) = Some row →
     match get_random_tweet o (active_tweetbook_id row) w with
     | (Returned (Some t), w') =>
         show_tweet_notification o w
         = (Returned (Some t),
            {| store := store w'; jobs := jobs w';
               open_conns := S (open_conns w');
               console := console w'
                 ++ ["NOTIFICATION: Tweet by " +:+ d_author t +:+ ": "
                     +:+ d_content t];
               recomputes := recomputes w' |})
     | (Returned None, _) => show_tweet_notification o w = (Returned None, w)
     | (Raised e, w') =>
         bindable (active_tweetbook_id row) = false ∧
         show_tweet_notification o w = (Raised e, left_open w')
     end).
Proof.
  split; [apply show_tweet_notification_no_row|].
  intros row Hrow. rewrite show_tweet_notification_eq, get_random_tweet_eq, Hrow.
  destruct (bindable _); [|done].
  by destruct (order_by_random_limit_1 _ _) as [[id t]|].
Qed.

Lemma show_tweet_notification_behaviour_witness :
  select_settings (store two_tweets) = Some default_settings ∧
  match get_random_tweet sample_oracle (Some 1) two_tweets with
  | (Returned (Some t), w') =>
      show_tweet_notification sample_oracle two_tweets
      = (Returned (Some t),
         {| store := store w'; jobs := jobs w';
            open_conns := S (open_conns w');
            console := console w'
              ++ ["NOTIFICATION: Tweet by " +:+ d_author t +:+ ": "
                  +:+ d_content t];
            recomputes := recomputes w' |})
  | (Returned None, _) =>
      show_tweet_notification sample_oracle two_tweets = (Returned None, two_tweets)
  | (Raised e, w') =>
      bindable (Some 1) = false ∧
      show_tweet_notification sample_oracle two_tweets = (Raised e, left_open w')
  end.
Proof.
  split; [reflexivity|].
  exact (proj2 (show_tweet_notification_behaviour sample_oracle two_tweets)
               default_settings eq_refl).
Defined.

Example show_tweet_notification_prints :
  (show_tweet_notification sample_oracle two_tweets).1
  = Returned (Some {| d_id := 2; d_tweet_id := "T2"; d_content := "hi";
                      d_author := "a" |}) ∧
  console (show_tweet_notification sample_oracle two_tweets).2
  = ["NOTIFICATION: Tweet by a: hi"].
Proof. split; reflexivity. Qed.

(** C7 as stated fails: with [active_tweetbook_id] absent from the
    settings row the producer is not idle.  In [no_active_tweetbook] that
    column is NULL and the one tweet of the store is printed and returned. *)
Lemma show_tweet_notification_null_active :
  ¬ (∀ (o : oracle) (w : world),
       select_settings (store w) ≫= active_tweetbook_id = None →
       show_tweet_notification o w = (Returned None, w)).
Proof.
  intros Hclaim. specialize (Hclaim sample_oracle no_active_tweetbook eq_refl).
  vm_compute in Hclaim. discriminate Hclaim.
Qed.

(** ** Reading the settings *)

Lemma get_settings_joined w v :
  select_settings_join (store w) = Some v →
  get_settings w = (Returned (JSettings v, 200), w).
Proof. intros Hv. by rewrite get_settings_eq, Hv. Qed.

Lemma get_settings_no_row w :
  select_settings_join (store w) = None →
  (get_settings w).1 = Raised TypeError ∧
  open_conns (get_settings w).2 = S (open_conns w).
Proof. intros Hv. by rewrite get_settings_eq, Hv. Qed.

(** C6.  After [PUT /api/settings] with [{"active_tweetbook_id": 99}] on
    the first run, a state the process reaches, the join of
    [get_settings] finds no row and the handler raises [TypeError]: it
    returns no response, so no NotFound either, and its connection stays
    open.  While the referenced tweetbook exists the joined row is
    returned with status 200. *)
Theorem get_settings_unhandled_fault :
  let w := serve sample_oracle (UpdateSettings (activate 99)) first_run in
  reachable w ∧
  select_settings_join (store w) = None ∧
  (get_settings w).1 = Raised TypeError ∧
  open_conns (get_settings w).2 = S (open_conns w) ∧
  get_settings first_run
  = (Returned
       (JSettings {| v_notification_frequency := Some "hourly";
                     v_start_time := Some "09:00"; v_end_time := Some "17:00";
                     v_random_mode := Some 1; v_active_tweetbook_id := Some 1;
                     v_active_tweetbook_name := "Default" |}, 200),
     first_run).
Proof.
  intros w. split; [|split; [|split; [|split]]].
  - apply reachable_serve, reachable_start.
  - reflexivity.
  - by apply get_settings_no_row.
  - by apply get_settings_no_row.
  - by apply get_settings_joined.
Qed.

(** ** Foreign keys *)

(** With the pragma on, the engine refuses a tweet of a missing tweetbook. *)
Lemma insert_tweet_enforced now tid cont auth k d :
  tweetbooks d !! k = None →
  table_full (tweets_seq d) (tweets d) = false →
  insert_tweet true now tid cont auth (Some k) d = Raised IntegrityError.
Proof.
  intros Hk Hfull. unfold insert_tweet, fk_violation. rewrite Hfull.
  destruct tid, cont, auth; try done.
  destruct (tweet_id_taken _ _); [done|].
  by rewrite bool_decide_true.
Qed.

(** C8.  The connections of the program run without foreign-key
    enforcement.  On the first run, [POST /api/tweets] with
    [tweetbook_id] 99 answers 201 and stores the tweet, and
    [PUT /api/settings] with [active_tweetbook_id] 99 answers 200 and
    stores the id, although no tweetbook 99 exists: referential integrity
    holds before each request and fails after it. *)
Theorem foreign_keys_not_enforced :
  let saved := save_tweet sample_oracle (tweet_in "T1" (Given 99)) first_run in
  let updated := update_settings sample_oracle (activate 99) first_run in
  referential_integrity (store first_run) ∧
  tweetbooks (store first_run) !! 99 = None ∧
  saved.1 = Returned (JSavedTweet 1 (Some "T1") (Some "hi") (Some "a") (Some 99), 201) ∧
  tweetbook_id <$> tweets (store saved.2) !! 1 = Some (Some 99) ∧
  ¬ referential_integrity (store saved.2) ∧
  updated.1 = Returned (JMessage "Settings updated successfully", 200) ∧
  active_tweetbook_id <$> settings (store updated.2) !! 1 = Some (Some 99) ∧
  ¬ referential_integrity (store updated.2).
Proof.
  intros saved updated.
  refine (conj _ (conj eq_refl (conj eq_refl (conj eq_refl
            (conj _ (conj eq_refl (conj eq_refl _))))))).
  - split.
    + intros id row k Hrow. by vm_compute in Hrow.
    + intros id row k Hrow%elem_of_map_to_list. vm_compute in Hrow.
      inversion Hrow as [|? ? ? Hrow']; subst; [|inversion Hrow'].
      intros [= <-]. by eexists.
  - intros [Htweets _].
    destruct (Htweets 1 _ 99 eq_refl eq_refl) as [t Ht]. by vm_compute in Ht.
  - intros [_ Hsettings].
    destruct (Hsettings 1 _ 99 eq_refl eq_refl) as [t Ht]. by vm_compute in Ht.
Qed.

(** ** Connections *)

(** Which calls give back the connection they opened. *)
Section released.
Variables (o : oracle) (w : world).

Lemma init_db_releases : open_conns (init_db o w).2 = open_conns w.
Proof. by rewrite init_db_eq. Qed.

Lemma create_tweetbook_releases data :
  open_conns (create_tweetbook o data w).2
  = match (create_tweetbook o data w).1 with
    | Returned _ => open_conns w
    | Raised _ => S (open_conns w)
    end.
Proof.
  rewrite create_tweetbook_eq. destruct (truthy_str _); [|done].
  by destruct (insert_tweetbook _ _ _ _) as [[k d]|[]].
Qed.

Lemma save_tweet_releases data :
  open_conns (save_tweet o data w).2
  = match (save_tweet o data w).1 with
    | Returned _ => open_conns w
    | Raised _ => S (open_conns w)
    end.
Proof.
  rewrite save_tweet_eq. destruct (_ && _); [|done].
  destruct (bindable _); [|done].
  by destruct (insert_tweet _ _ _ _ _ _ _) as [[k d]|[]].
Qed.

Lemma delete_tweet_releases id :
  open_conns (delete_tweet id w).2
  = match (delete_tweet id w).1 with
    | Returned _ => open_conns w
    | Raised _ => S (open_conns w)
    end.
Proof.
  rewrite delete_tweet_eq. destruct (int64 id); [|done].
  by destruct (tweets (store w) !! id).
Qed.

Lemma update_scheduler_releases :
  open_conns (update_scheduler o w).2
  = match (update_scheduler o w).1 with
    | Returned _ => open_conns w
    | Raised _ => S (open_conns w)
    end.
Proof.
  unfold update_scheduler. run.
  destruct (select_settings (store w)) as [row|]; simpl; [|done].
  sched_cases row.
Qed.

Lemma get_random_tweet_releases tb :
  open_conns (get_random_tweet o tb w).2
  = match (get_random_tweet o tb w).1 with
    | Returned None => open_conns w
    | _ => S (open_conns w)
    end.
Proof.
  rewrite get_random_tweet_eq. destruct (bindable tb); [|done].
  by destruct (order_by_random_limit_1 _ _) as [[id row]|].
Qed.
End released.

(** C9.  In [two_tweets] no connection is open.  [get_random_tweet]
    finds a tweet there and returns it with its connection still open;
    [show_tweet_notification] returns the tweet with two connections
    open, its own and that of [get_random_tweet].  On the paths that find
    no tweet both close what they opened. *)
Theorem connection_left_open_when_found :
  open_conns two_tweets = 0%nat ∧
  (∃ t, (get_random_tweet sample_oracle (Some 1) two_tweets).1
        = Returned (Some t)) ∧
  open_conns (get_random_tweet sample_oracle (Some 1) two_tweets).2 = 1%nat ∧
  (∃ t, (show_tweet_notification sample_oracle two_tweets).1
        = Returned (Some t)) ∧
  open_conns (show_tweet_notification sample_oracle two_tweets).2 = 2%nat ∧
  open_conns (get_random_tweet sample_oracle (Some 1) first_run).2 = 0%nat ∧
  open_conns (show_tweet_notification sample_oracle first_run).2 = 0%nat.
Proof.
  refine (conj eq_refl (conj _ (conj eq_refl (conj _ (conj eq_refl
            (conj eq_refl eq_refl)))))); by eexists.
Qed.

(* ===================================================================== *)
(** * Further properties of the handlers *)
(* ===================================================================== *)

(** ** What each handler returns and leaves behind *)

Lemma with_store_same w : with_store (store w) w = w.
Proof. by destruct w. Qed.

Lemma get_tweetbooks_eq w :
  get_tweetbooks w = (Returned (select_tweetbooks (store w), 200), w).
Proof. unfold get_tweetbooks. run. by destruct w. Qed.

Lemma get_tweets_by_tweetbook_eq tb w :
  get_tweets_by_tweetbook tb w
  = if int64 tb
    then (Returned (select_tweets_by_tweetbook tb (store w), 200), w)
    else (Raised OverflowError, left_open w).
Proof.
  unfold get_tweets_by_tweetbook. run. rewrite andb_true_r.
  destruct (int64 tb); [by destruct w|done].
Qed.

Lemma name_taken_spec n m :
  name_taken n m = true ↔ ∃ k t, m !! k = Some t ∧ name t = n.
Proof. unfold name_taken. rewrite bool_decide_eq_true. apply map_Exists_lookup. Qed.

Lemma tweet_id_taken_spec n m :
  tweet_id_taken n m = true ↔ ∃ k t, m !! k = Some t ∧ tweet_id t = n.
Proof. unfold tweet_id_taken. rewrite bool_decide_eq_true. apply map_Exists_lookup. Qed.

Lemma truthy_str_Some n : truthy_str (Some n) = true ↔ n ≠ "".
Proof.
  simpl. rewrite negb_true_iff. destruct (String.eqb_spec n ""); naive_solver.
Qed.

Lemma next_rowid_above {A} seq (m : gmap Z A) :
  seq < next_rowid seq m ∧ ∀ k, is_Some (m !! k) → k < next_rowid seq m.
Proof.
  unfold next_rowid. destruct (max_rowid_bound m) as [_ Hk]. split; [lia|].
  intros k Hs. specialize (Hk _ Hs). lia.
Qed.

(** ** Creating tweetbooks *)

Lemma create_tweetbook_taken o data w n k t :
  dict_get (b_name data) = Some n → n ≠ "" →
  table_full (tweetbooks_seq (store w)) (tweetbooks (store w)) = false →
  tweetbooks (store w) !! k = Some t → name t = n →
  create_tweetbook o data w
  = (Returned (JError "A tweetbook with this name already exists", 400), w).
Proof.
  intros Hn Hne Hfull Hk Ht. rewrite create_tweetbook_eq, Hn.
  rewrite (proj2 (truthy_str_Some n) Hne). unfold insert_tweetbook.
  rewrite Hfull, (proj2 (name_taken_spec n _)); [done|]. by exists k, t.
Qed.

(** A full table takes no row: the INSERT fails before it looks at the
    name, and no handler catches that. *)
Lemma create_tweetbook_full o data w :
  truthy_str (dict_get (b_name data)) = true →
  table_full (tweetbooks_seq (store w)) (tweetbooks (store w)) = true →
  create_tweetbook o data w = (Raised OperationalError, left_open w).
Proof.
  intros Hn Hfull. rewrite create_tweetbook_eq, Hn. unfold insert_tweetbook.
  by rewrite Hfull.
Qed.

(** X1.  [create_tweetbook] refuses a missing, null or empty name and a
    name some tweetbook already has.  Both answers are 400, each with its
    own message, and both leave the whole state as it was, the connection
    of the second closed again.  (The second is the answer while the
    table can take a row; once the last rowid, 2^63 - 1, was used, the
    INSERT fails before it looks at the name and the handler raises
    [OperationalError], its connection left open.) *)
Theorem create_tweetbook_refused (o : oracle) (data : tweetbook_body) (w : world) :
  (truthy_str (dict_get (b_name data)) = false →
     create_tweetbook o data w
     = (Returned (JError "Tweetbook name is required", 400), w)) ∧
  (∀ n k t, dict_get (b_name data) = Some n → n ≠ "" →
     tweetbooks (store w) !! k = Some t → name t = n →
     create_tweetbook o data w
     = if table_full (tweetbooks_seq (store w)) (tweetbooks (store w))
       then (Raised OperationalError, left_open w)
       else (Returned (JError "A tweetbook with this name already exists", 400),
             w)).
Proof.
  split.
  - intros Hn. rewrite create_tweetbook_eq. by rewrite Hn.
  - intros n k t Hn Hne Hk Ht.
    destruct (table_full _ _) eqn:Hfull.
    + apply create_tweetbook_full; [|done]. rewrite Hn. by apply truthy_str_Some.
    + by apply (create_tweetbook_taken o data w n k t).
Qed.

Lemma create_tweetbook_refused_witness :
  create_tweetbook sample_oracle
    {| b_name := Given "Default"; b_description := Missing |} first_run
  = (Returned (JError "A tweetbook with this name already exists", 400), first_run)
  ∧ create_tweetbook sample_oracle
      {| b_name := Given ""; b_description := Missing |} first_run
    = (Returned (JError "Tweetbook name is required", 400), first_run).
Proof.
  split.
  - exact (proj2 (create_tweetbook_refused sample_oracle
                    {| b_name := Given "Default"; b_description := Missing |}
                    first_run)
             "Default" 1 (default_tweetbook 1000) eq_refl
             ltac:(discriminate) eq_refl eq_refl).
  - exact (proj1 (create_tweetbook_refused sample_oracle
                    {| b_name := Given ""; b_description := Missing |}
                    first_run) eq_refl).
Defined.



(** ** Rows that stay *)

Lemma db_change_tweetbooks d d' k t :
  db_change d d' → tweetbooks d !! k = Some t → tweetbooks d' !! k = Some t.
Proof.
  intros Hc Hk. destruct Hc as [|m s|f|n descr t' Hn Hfull]; simpl; try done.
  rewrite lookup_insert_ne; [done|]. intros <-.
  destruct (next_rowid_fresh (tweetbooks_seq d) (tweetbooks d)) as [_ Hfresh].
  congruence.
Qed.

Lemma later_tweetbooks w w' k t :
  later w w' →
  tweetbooks (store w) !! k = Some t →
  tweetbooks (store w') !! k = Some t.
Proof.
  intros Hlater Hk. induction Hlater as [|o r w' _ IH|o w' _ IH].
  - done.
  - eapply db_change_tweetbooks; [apply serve_change|done].
  - rewrite startup_store.
    by apply (proj1 (db_after_init_keeps_rows (now o) (store w'))).
Qed.

(** X3.  No request and no restart removes or alters a tweetbook: a row
    of [tweetbooks] is found unchanged in every later state.  So the name
    of a tweetbook that was created is refused for good: in every later
    state a request with that name is answered 400 and changes nothing
    (or, once the last rowid, 2^63 - 1, was used and the table takes no
    row, raises [OperationalError] like every other request to create
    one). *)
Theorem tweetbooks_stay (o o' : oracle) (data data' : tweetbook_body)
    (w w' : world) (body : json) :
  later w w' →
  (∀ k t, tweetbooks (store w) !! k = Some t →
          tweetbooks (store w') !! k = Some t) ∧
  ((create_tweetbook o data w).1 = Returned (body, 201) →
   later (create_tweetbook o data w).2 w' →
   dict_get (b_name data') = dict_get (b_name data) →
   create_tweetbook o' data' w'
   = if table_full (tweetbooks_seq (store w')) (tweetbooks (store w'))
     then (Raised OperationalError, left_open w')
     else (Returned (JError "A tweetbook with this name already exists", 400),
           w')).
Proof.
  intros Hlater. split.
  - intros k t. by apply later_tweetbooks.
  - intros Hcreated Hafter Hname.
    rewrite create_tweetbook_eq in Hcreated, Hafter.
    destruct (truthy_str (dict_get (b_name data))) eqn:Htruthy; [|done].
    destruct (insert_tweetbook _ _ _ _) as [[id d]|e] eqn:E; [|by destruct e].
    apply insert_tweetbook_Returned in E as (n & Hn & _ & _ & -> & ->).
    rewrite Hn in Htruthy, Hname.
    destruct (table_full _ _) eqn:Hfull.
    + apply create_tweetbook_full; [|done]. by rewrite Hname.
    + apply truthy_str_Some in Htruthy.
      eapply (create_tweetbook_taken o' data' w' n); [done..| |].
      * eapply later_tweetbooks; [exact Hafter|]. simpl. apply lookup_insert_eq.
      * done.
Qed.

Lemma tweetbooks_stay_witness :
  tweetbooks (store with_jokes) !! 1 = Some (default_tweetbook 1000) ∧
  create_tweetbook later_oracle jokes
    (serve sample_oracle (DeleteTweet 1) with_jokes)
  = (Returned (JError "A tweetbook with this name already exists", 400),
     serve sample_oracle (DeleteTweet 1) with_jokes).
Proof.
  split.
  - refine (proj1 (tweetbooks_stay sample_oracle sample_oracle jokes jokes
                     first_run with_jokes (JMessage "") _) 1 _ eq_refl).
    unfold with_jokes, two_tweets. do 3 apply later_serve. apply later_now.
  - refine (proj2 (tweetbooks_stay sample_oracle later_oracle jokes jokes
                     two_tweets (serve sample_oracle (DeleteTweet 1) with_jokes)
                     _ _) eq_refl _ eq_refl).
    + unfold with_jokes. do 2 apply later_serve. apply later_now.
    + apply later_serve. apply later_now.
Defined.

(** ** Saving and deleting tweets *)

Lemma save_tweet_taken o data w n k t :
  dict_get (b_tweet_id data) = Some n →
  truthy_str (dict_get (b_tweet_id data))
    && truthy_str (dict_get (b_content data))
    && truthy_str (dict_get (b_author data)) = true →
  bindable (dict_get_default (b_tweetbook_id data) 1) = true →
  table_full (tweets_seq (store w)) (tweets (store w)) = false →
  tweets (store w) !! k = Some t → tweet_id t = n →
  save_tweet o data w
  = (Returned (JError "This tweet has already been saved", 400), w).
Proof.
  intros Hn Hall Hb Hfull Hk Ht. rewrite save_tweet_eq, Hall, Hb, Hn.
  unfold insert_tweet. rewrite Hfull.
  destruct (dict_get (b_content data)), (dict_get (b_author data)); try done.
  rewrite (proj2 (tweet_id_taken_spec n _)); [done|]. by exists k, t.
Qed.

Lemma save_tweet_free o data w tid cont auth :
  dict_get (b_tweet_id data) = Some tid → tid ≠ "" →
  dict_get (b_content data) = Some cont → cont ≠ "" →
  dict_get (b_author data) = Some auth → auth ≠ "" →
  (∀ k t, tweets (store w) !! k = Some t → tweet_id t ≠ tid) →
  let tb := dict_get_default (b_tweetbook_id data) 1 in
  let id := next_rowid (tweets_seq (store w)) (tweets (store w)) in
  bindable tb = true →
  table_full (tweets_seq (store w)) (tweets (store w)) = false →
  save_tweet o data w
  = (Returned (JSavedTweet id (Some tid) (Some cont) (Some auth) tb, 201),
     with_store
       (set_tweets
          (<[id := {| tweet_id := tid; content := cont; author := auth;
                      tweetbook_id := tb; created_at := now o;
                      last_shown := None |}]> (tweets (store w)))
          id (store w)) w).
Proof.
  intros Htid Hn1 Hcont Hn2 Hauth Hn3 Hfree tb id Hb Hfull.
  rewrite save_tweet_eq, Htid, Hcont, Hauth.
  rewrite (proj2 (truthy_str_Some tid) Hn1), (proj2 (truthy_str_Some cont) Hn2),
    (proj2 (truthy_str_Some auth) Hn3). fold tb. rewrite Hb.
  unfold insert_tweet. rewrite Hfull. simpl.
  destruct (tweet_id_taken tid (tweets (store w))) eqn:Htaken; [|done].
  apply tweet_id_taken_spec in Htaken as (k & t & Hk & Ht). by destruct (Hfree k t Hk).
Qed.

(** X4.  [save_tweet] answers 400 and leaves the whole state as it was
    when one of [tweet_id], [content] and [author] is missing, null or
    empty, and when [tweet_id] is that of a stored tweet, whatever
    tweetbook the stored tweet or the new one belongs to.  (The second
    is the answer when the statement gets as far as the UNIQUE check.
    Before that, a [tweetbook_id] that does not fit 64 bits makes the
    handler raise [OverflowError], and a table that takes no row, its last
    rowid 2^63 - 1 used, makes it raise [OperationalError]; either way
    the state is as it was but for the connection left open.) *)
Theorem save_tweet_refused (o : oracle) (data : tweet_body) (w : world) :
  (truthy_str (dict_get (b_tweet_id data))
     && truthy_str (dict_get (b_content data))
     && truthy_str (dict_get (b_author data)) = false →
   save_tweet o data w
   = (Returned (JError "Tweet ID, content, and author are required", 400), w)) ∧
  (∀ n k t,
     dict_get (b_tweet_id data) = Some n →
     truthy_str (dict_get (b_tweet_id data))
       && truthy_str (dict_get (b_content data))
       && truthy_str (dict_get (b_author data)) = true →
     tweets (store w) !! k = Some t → tweet_id t = n →
     save_tweet o data w
     = if bindable (dict_get_default (b_tweetbook_id data) 1) then
         if table_full (tweets_seq (store w)) (tweets (store w))
         then (Raised OperationalError, left_open w)
         else (Returned (JError "This tweet has already been saved", 400), w)
       else (Raised OverflowError, left_open w)).
Proof.
  split.
  - intros Hall. rewrite save_tweet_eq. by rewrite Hall.
  - intros n k t Hn Hall Hk Ht.
    destruct (bindable _) eqn:Hb; [|by rewrite save_tweet_eq, Hall, Hb].
    destruct (table_full _ _) eqn:Hfull.
    + rewrite save_tweet_eq, Hall, Hb. unfold insert_tweet. by rewrite Hfull.
    + by apply (save_tweet_taken o data w n k t).
Qed.

Lemma save_tweet_refused_witness :
  save_tweet later_oracle (tweet_in "T1" (Given 5)) two_tweets
  = (Returned (JError "This tweet has already been saved", 400), two_tweets) ∧
  save_tweet later_oracle
    {| b_tweet_id := Given "T9"; b_content := Null; b_author := Given "a";
       b_tweetbook_id := Missing |} two_tweets
  = (Returned (JError "Tweet ID, content, and author are required", 400),
     two_tweets).
Proof.
  split.
  - exact (proj2 (save_tweet_refused later_oracle (tweet_in "T1" (Given 5))
                    two_tweets) "T1" 1 _ eq_refl eq_refl eq_refl eq_refl).
  - exact (proj1 (save_tweet_refused later_oracle
                    {| b_tweet_id := Given "T9"; b_content := Null;
                       b_author := Given "a"; b_tweetbook_id := Missing |}
                    two_tweets) eq_refl).
Defined.



(** X6.  For an id that fits 64 bits, [delete_tweet] answers 200 when
    the id is stored and then removes that row and no other; it answers
    404 when the id is not stored and then changes nothing.  Either way
    the id is not stored afterwards, so deleting it once more is answered
    404.  For an id that does not fit 64 bits it raises [OverflowError]:
    nothing is deleted and the connection stays open. *)
Theorem delete_tweet_outcomes (id : Z) (w : world) :
  (int64 id = true →
     (is_Some (tweets (store w) !! id) →
        delete_tweet id w
        = (Returned (JMessage "Tweet deleted successfully", 200),
           with_store (set_tweets (delete id (tweets (store w)))
                                  (tweets_seq (store w)) (store w)) w)) ∧
     (tweets (store w) !! id = None →
        delete_tweet id w = (Returned (JError "Tweet not found", 404), w)) ∧
     tweets (store (delete_tweet id w).2) !! id = None ∧
     (∀ k, k ≠ id →
        tweets (store (delete_tweet id w).2) !! k = tweets (store w) !! k) ∧
     delete_tweet id (delete_tweet id w).2
     = (Returned (JError "Tweet not found", 404), (delete_tweet id w).2)) ∧
  (int64 id = false →
     delete_tweet id w = (Raised OverflowError, left_open w)).
Proof.
  split; [|by intros Hb; rewrite delete_tweet_eq, Hb].
  intros Hb.
  assert (tweets (store (delete_tweet id w).2) !! id = None) as Hgone.
  { rewrite delete_tweet_eq, Hb.
    destruct (tweets (store w) !! id) eqn:E; simpl; [apply lookup_delete_eq|done]. }
  refine (conj _ (conj _ (conj Hgone (conj _ _)))).
  - intros [t Ht]. rewrite delete_tweet_eq, Hb. by rewrite Ht.
  - intros Ht. rewrite delete_tweet_eq, Hb. by rewrite Ht.
  - intros k Hk. rewrite delete_tweet_eq, Hb.
    destruct (tweets (store w) !! id) eqn:E; simpl; [|done].
    by rewrite lookup_delete_ne.
  - rewrite (delete_tweet_eq id (delete_tweet id w).2), Hb. by rewrite Hgone.
Qed.

Lemma delete_tweet_outcomes_witness :
  (delete_tweet 1 two_tweets).1
  = Returned (JMessage "Tweet deleted successfully", 200) ∧
  (delete_tweet 7 two_tweets).1 = Returned (JError "Tweet not found", 404) ∧
  delete_tweet (2 ^ 63) two_tweets = (Raised OverflowError, left_open two_tweets).
Proof.
  destruct (proj1 (delete_tweet_outcomes 1 two_tweets) eq_refl) as (Hfound & _).
  destruct (proj1 (delete_tweet_outcomes 7 two_tweets) eq_refl)
    as (_ & Hmissing & _).
  refine (conj _ (conj _ (proj2 (delete_tweet_outcomes (2 ^ 63) two_tweets)
                                eq_refl))).
  - rewrite (Hfound ltac:(vm_compute; by eexists)). reflexivity.
  - rewrite (Hmissing eq_refl). reflexivity.
Defined.

(** ** The tweets of a running process *)

Lemma get_settings_store w : store (get_settings w).2 = store w.
Proof. rewrite get_settings_eq. by destruct (select_settings_join (store w)). Qed.

Lemma serve_tweets_change o r w : tweets_change (store w) (store (serve o r w)).
Proof.
  destruct r as [data|data| |data|arg|id|]; simpl.
  - rewrite create_tweetbook_eq. destruct (truthy_str _); [|by apply tweets_kept].
    destruct (insert_tweetbook _ _ _ _) as [[k d]|e] eqn:E;
      [|destruct e; by apply tweets_kept].
    apply insert_tweetbook_Returned in E as (n & _ & _ & _ & _ & ->).
    by apply tweets_kept.
  - rewrite save_tweet_eq.
    destruct (_ && _) eqn:Hall; [|by apply tweets_kept].
    destruct (bindable _); [|by apply tweets_kept].
    destruct (insert_tweet _ _ _ _ _ _ _) as [[k d]|e] eqn:E;
      [|destruct e; by apply tweets_kept].
    apply insert_tweet_Returned in E
      as (tid & cont & auth & Htid & Hcont & Hauth & Hfree & Hfull & -> & ->).
    rewrite Htid, Hcont, Hauth in Hall.
    apply andb_true_iff in Hall as [H12 H3%truthy_str_Some].
    apply andb_true_iff in H12 as [H1%truthy_str_Some H2%truthy_str_Some].
    by apply (tweets_saved _ _
                {| tweet_id := tid; content := cont; author := auth;
                   tweetbook_id := dict_get_default (b_tweetbook_id data) 1;
                   created_at := now o; last_shown := None |}).
  - rewrite get_settings_store. by apply tweets_kept.
  - rewrite update_settings_store.
    destruct (bindable _), (update_fields data); by apply tweets_kept.
  - destruct (get_random_tweet_endpoint_store o arg w) as [->|[k ->]];
      [by apply tweets_kept|by eapply tweets_shown].
  - rewrite delete_tweet_eq. destruct (int64 id); [|by apply tweets_kept].
    destruct (tweets (store w) !! id);
      [by eapply tweets_deleted|by apply tweets_kept].
  - destruct (show_tweet_notification_store o w) as [->|[k ->]];
      [by apply tweets_kept|by eapply tweets_shown].
Qed.

Lemma db_after_init_tweets now d :
  tweets (db_after_init now d) = tweets d ∧
  tweets_seq (db_after_init now d) = tweets_seq d.
Proof.
  unfold db_after_init. rewrite insert_default_settings_off.
  unfold insert_default_tweetbook.
  destruct (_ || _); case_bool_decide; done.
Qed.

Lemma lookup_shown (m : gmap Z tweet) now id k t :
  alter (set_last_shown now) id m !! k = Some t →
  ∃ u, m !! k = Some u ∧ tweet_id t = tweet_id u ∧ content t = content u ∧
       author t = author u ∧ tweetbook_id t = tweetbook_id u ∧
       created_at t = created_at u.
Proof.
  rewrite lookup_alter. case_decide; [|by exists t].
  subst. rewrite fmap_Some. intros (u & Hu & ->). by exists u.
Qed.

Lemma tweets_change_written d d' :
  tweets_change d d' → tweets_written d → tweets_written d'.
Proof.
  intros Hc (Hkeys & Huniq & Hfull & Hlast).
  destruct Hc as [Ht Hs|now id Ht Hs|id Ht Hs|row Hfree Hleft H1 H2 H3 Ht Hs];
    unfold tweets_written; rewrite Ht, Hs.
  - done.
  - refine (conj _ (conj _ (conj _ Hlast))).
    + intros k [t (u & Hu & _)%lookup_shown]. apply Hkeys. by eexists.
    + intros k1 k2 t1 t2 (u1 & Hu1 & E1 & _)%lookup_shown
        (u2 & Hu2 & E2 & _)%lookup_shown Heq.
      apply (Huniq k1 k2 u1 u2 Hu1 Hu2). congruence.
    + intros k t (u & Hu & E1 & E2 & E3 & _)%lookup_shown.
      rewrite E1, E2, E3. by apply (Hfull k).
  - refine (conj _ (conj _ (conj _ Hlast))).
    + intros k [t Hk]. apply lookup_delete_Some in Hk as [_ Hk].
      apply Hkeys. by eexists.
    + intros k1 k2 t1 t2 [_ Hk1]%lookup_delete_Some [_ Hk2]%lookup_delete_Some.
      by apply Huniq.
    + intros k t [_ Hk]%lookup_delete_Some. by apply (Hfull k).
  - destruct (next_rowid_fresh (tweets_seq d) (tweets d)) as [Hge Hfresh].
    destruct (next_rowid_above (tweets_seq d) (tweets d)) as [Hseq _].
    apply table_full_false in Hleft.
    set (id := next_rowid (tweets_seq d) (tweets d)) in *.
    assert (∀ k t, tweets d !! k = Some t → tweet_id t ≠ tweet_id row) as Hnew.
    { intros k t Hk Heq. apply not_true_iff_false in Hfree. apply Hfree.
      apply tweet_id_taken_spec. by exists k, t. }
    refine (conj _ (conj _ (conj _ Hleft))).
    + intros k. destruct (decide (k = id)) as [->|Hne]; [lia|].
      rewrite lookup_insert_ne by done. intros Hk%Hkeys. lia.
    + intros k1 k2 t1 t2.
      destruct (decide (k1 = id)) as [->|Hn1], (decide (k2 = id)) as [->|Hn2];
        rewrite ?lookup_insert_eq, ?lookup_insert_ne by done; try done.
      * intros [= <-] Hk2 Heq. by destruct (Hnew _ _ Hk2).
      * intros Hk1 [= <-] Heq. by destruct (Hnew _ _ Hk1).
      * apply Huniq.
    + intros k t. destruct (decide (k = id)) as [->|Hne].
      * rewrite lookup_insert_eq. by intros [= <-].
      * rewrite lookup_insert_ne by done. apply Hfull.
Qed.

Lemma tweets_change_seq d d' : tweets_change d d' → tweets_seq d ≤ tweets_seq d'.
Proof.
  intros [Ht Hs|now id Ht Hs|id Ht Hs|row Hfree Hleft H1 H2 H3 Ht Hs]; rewrite Hs;
    try lia.
  destruct (next_rowid_above (tweets_seq d) (tweets d)). lia.
Qed.

Lemma reachable_tweets_written w : reachable w → tweets_written (store w).
Proof.
  induction 1 as [o|o r w _ IH|o w _ IH].
  - rewrite startup_store, db_after_init_empty. unfold tweets_written. simpl.
    refine (conj _ (conj _ (conj _ _))); intros *; rewrite ?lookup_empty;
      try done; by intros [? ?].
  - eapply tweets_change_written; [apply serve_tweets_change|done].
  - rewrite startup_store. destruct (db_after_init_tweets (now o) (store w))
      as [Ht Hs]. unfold tweets_written. by rewrite Ht, Hs.
Qed.

Lemma later_reachable w w' : reachable w → later w w' → reachable w'.
Proof.
  intros Hr. induction 1; [done|by apply reachable_serve|by apply reachable_restart].
Qed.

Lemma later_tweets_seq w w' :
  later w w' → tweets_seq (store w) ≤ tweets_seq (store w').
Proof.
  induction 1 as [|o r w' _ IH|o w' _ IH]; [lia| |].
  - pose proof (tweets_change_seq _ _ (serve_tweets_change o r w')). lia.
  - rewrite startup_store.
    destruct (db_after_init_tweets (now o) (store w')) as [_ ->]. lia.
Qed.

Lemma later_tweet_kept w w' k t t' :
  reachable w → later w w' →
  tweets (store w) !! k = Some t → tweets (store w') !! k = Some t' →
  tweet_id t' = tweet_id t ∧ content t' = content t ∧ author t' = author t ∧
  tweetbook_id t' = tweetbook_id t ∧ created_at t' = created_at t.
Proof.
  intros Hr Hlater Hk. revert t'.
  assert (k ≤ tweets_seq (store w)) as Hseq.
  { destruct (reachable_tweets_written _ Hr) as (Hkeys & _).
    apply Hkeys. by eexists. }
  induction Hlater as [|o r w' Hlater IH|o w' Hlater IH]; intros t' Hk'.
  - rewrite Hk in Hk'. by injection Hk' as <-.
  - pose proof (later_tweets_seq _ _ Hlater) as Hmono.
    destruct (serve_tweets_change o r w')
      as [Ht Hs|now id Ht Hs|id Ht Hs|row Hfree Hleft H1 H2 H3 Ht Hs];
      rewrite Ht in Hk'.
    + by apply IH.
    + apply lookup_shown in Hk' as (u & Hu & E1 & E2 & E3 & E4 & E5).
      rewrite E1, E2, E3, E4, E5. by apply IH.
    + apply lookup_delete_Some in Hk' as [_ Hk']. by apply IH.
    + destruct (next_rowid_above (tweets_seq (store w')) (tweets (store w'))).
      rewrite lookup_insert_ne in Hk' by lia. by apply IH.
  - rewrite startup_store in Hk'.
    destruct (db_after_init_tweets (now o) (store w')) as [Ht _].
    rewrite Ht in Hk'. by apply IH.
Qed.

Lemma later_tweet_gone w w' k :
  k ≤ tweets_seq (store w) → tweets (store w) !! k = None →
  later w w' → tweets (store w') !! k = None.
Proof.
  intros Hseq Hk Hlater.
  induction Hlater as [|o r w' Hlater IH|o w' Hlater IH]; [done| |].
  - pose proof (later_tweets_seq _ _ Hlater) as Hmono.
    destruct (serve_tweets_change o r w')
      as [Ht Hs|now id Ht Hs|id Ht Hs|row Hfree Hleft H1 H2 H3 Ht Hs]; rewrite Ht.
    + done.
    + rewrite lookup_alter. case_decide; [subst; by rewrite IH|done].
    + apply lookup_delete_None. by right.
    + destruct (next_rowid_above (tweets_seq (store w')) (tweets (store w'))).
      rewrite lookup_insert_ne by lia. done.
  - rewrite startup_store.
    by destruct (db_after_init_tweets (now o) (store w')) as [-> _].
Qed.

(** X7.  In every state the process reaches, each stored tweet has an
    id between 1 and the key sequence and a non-empty [tweet_id],
    [content] and [author], and no two stored tweets share a
    [tweet_id]. *)
Theorem tweets_of_a_running_process (w : world) :
  reachable w →
  (∀ k t, tweets (store w) !! k = Some t →
          1 ≤ k ≤ tweets_seq (store w) ∧
          tweet_id t ≠ "" ∧ content t ≠ "" ∧ author t ≠ "") ∧
  (∀ k1 k2 t1 t2,
     tweets (store w) !! k1 = Some t1 → tweets (store w) !! k2 = Some t2 →
     tweet_id t1 = tweet_id t2 → k1 = k2).
Proof.
  intros Hr. destruct (reachable_tweets_written _ Hr) as (Hkeys & Huniq & Hfull & Hlast).
  split; [|exact Huniq].
  intros k t Hk. split; [|by apply (Hfull k)].
  apply Hkeys. by eexists.
Qed.

Lemma tweets_of_a_running_process_witness :
  1 ≤ 2 ≤ tweets_seq (store two_tweets).
Proof.
  exact (proj1 (proj1 (tweets_of_a_running_process two_tweets
                         (reachable_serve _ _ _
                            (reachable_serve _ _ _
                               (reachable_start sample_oracle))))
                  2 _ eq_refl)).
Defined.

(** What an answer 201 of [save_tweet] tells. *)
Lemma save_tweet_201 o data w id a b c tb :
  (save_tweet o data w).1 = Returned (JSavedTweet id a b c tb, 201) →
  ∃ tid cont auth,
    a = Some tid ∧ b = Some cont ∧ c = Some auth ∧
    tb = dict_get_default (b_tweetbook_id data) 1 ∧ bindable tb = true ∧
    table_full (tweets_seq (store w)) (tweets (store w)) = false ∧
    id = next_rowid (tweets_seq (store w)) (tweets (store w)) ∧
    (save_tweet o data w).2
    = with_store
        (set_tweets
           (<[id := {| tweet_id := tid; content := cont; author := auth;
                       tweetbook_id := tb; created_at := now o;
                       last_shown := None |}]> (tweets (store w)))
           id (store w)) w.
Proof.
  rewrite save_tweet_eq. destruct (_ && _); [|done].
  destruct (bindable _) eqn:Hb; [|done].
  destruct (insert_tweet _ _ _ _ _ _ _) as [[k d]|e] eqn:E; [|by destruct e].
  apply insert_tweet_Returned in E
    as (tid & cont & auth & -> & -> & -> & _ & Hfull & -> & ->).
  simpl. intros [= <- <- <- <- <-]. by exists tid, cont, auth.
Qed.

(** X8.  The id of a tweet is never given out again: when a tweet is
    stored under an id in some state the process reaches, every tweet
    saved in a later state gets a larger id, also after the first tweet
    was deleted. *)
Theorem tweet_ids_never_reused (o : oracle) (data : tweet_body) (w w' : world)
    (k id : Z) (a b c : option string) (tb : option Z) :
  reachable w → is_Some (tweets (store w) !! k) → later w w' →
  (save_tweet o data w').1 = Returned (JSavedTweet id a b c tb, 201) →
  k < id ∧ tweets (store w') !! id = None.
Proof.
  intros Hr Hk Hlater Hsaved.
  destruct (reachable_tweets_written _ Hr) as (Hkeys & _).
  specialize (Hkeys _ Hk). pose proof (later_tweets_seq _ _ Hlater) as Hmono.
  destruct (next_rowid_above (tweets_seq (store w')) (tweets (store w')))
    as [Hseq _].
  destruct (next_rowid_fresh (tweets_seq (store w')) (tweets (store w')))
    as [_ Hfresh].
  apply save_tweet_201 in Hsaved as (? & ? & ? & _ & _ & _ & _ & _ & _ & -> & _).
  split; [lia|done].
Qed.

Lemma tweet_ids_never_reused_witness :
  ∃ id,
    (save_tweet later_oracle (tweet_in "T1" Missing)
       (serve sample_oracle (DeleteTweet 1) two_tweets)).1
    = Returned (JSavedTweet id (Some "T1") (Some "hi") (Some "a") (Some 1), 201)
    ∧ 1 < id.
Proof.
  eexists. split; [reflexivity|].
  refine (proj1 (tweet_ids_never_reused later_oracle (tweet_in "T1" Missing)
                   two_tweets (serve sample_oracle (DeleteTweet 1) two_tweets)
                   1 _ _ _ _ _ _ _ _ eq_refl)).
  - do 2 apply reachable_serve. apply reachable_start.
  - vm_compute. by eexists.
  - apply later_serve, later_now.
Defined.

(** X9.  A stored tweet is never edited and a deleted one never comes
    back: in every later state the id either holds a row with the same
    [tweet_id], [content], [author], [tweetbook_id] and [created_at], or
    holds none, and then it holds none from there on. *)
Theorem stored_tweet_never_edited (w w' w'' : world) (k : Z) (t : tweet) :
  reachable w → tweets (store w) !! k = Some t →
  later w w' → later w' w'' →
  (∀ t', tweets (store w') !! k = Some t' →
         tweet_id t' = tweet_id t ∧ content t' = content t ∧
         author t' = author t ∧ tweetbook_id t' = tweetbook_id t ∧
         created_at t' = created_at t) ∧
  (tweets (store w') !! k = None → tweets (store w'') !! k = None).
Proof.
  intros Hr Hk Hlater Hlater'. split.
  - intros t' Hk'. by apply (later_tweet_kept w w' k).
  - intros Hgone. apply (later_tweet_gone w' w'' k); [|done..].
    destruct (reachable_tweets_written _ Hr) as (Hkeys & _).
    pose proof (later_tweets_seq _ _ Hlater).
    assert (k ≤ tweets_seq (store w)) by (apply Hkeys; by eexists). lia.
Qed.

Lemma stored_tweet_never_edited_witness :
  tweets (store (serve later_oracle (RandomTweet ArgMissing)
                   (serve sample_oracle (DeleteTweet 1) two_tweets))) !! 1
  = None.
Proof.
  refine (proj2 (stored_tweet_never_edited two_tweets
                   (serve sample_oracle (DeleteTweet 1) two_tweets)
                   (serve later_oracle (RandomTweet ArgMissing)
                      (serve sample_oracle (DeleteTweet 1) two_tweets))
                   1 _ _ eq_refl _ _) eq_refl).
  - do 2 apply reachable_serve. apply reachable_start.
  - apply later_serve, later_now.
  - apply later_serve, later_now.
Defined.

Lemma max_rowid_le {A} (m : gmap Z A) (b : Z) :
  0 ≤ b → (∀ k, is_Some (m !! k) → k ≤ b) → max_rowid m ≤ b.
Proof.
  intros Hb. unfold max_rowid.
  apply (map_fold_weak_ind (λ r m, (∀ k, is_Some (m !! k) → k ≤ b) → r ≤ b)).
  - done.
  - intros i x m' r Hi IH Hk.
    assert (i ≤ b) by (apply Hk; rewrite lookup_insert_eq; by eexists).
    assert (r ≤ b); [|lia].
    apply IH. intros k Hs. apply Hk.
    rewrite lookup_insert_ne; [done|]. intros <-. rewrite Hi in Hs.
    by destruct Hs.
Qed.

(** Deleting a row does not fill the table. *)
Lemma table_full_delete {A} seq (m : gmap Z A) k :
  table_full seq m = false → table_full seq (delete k m) = false.
Proof.
  rewrite !table_full_false. unfold next_rowid. intros Hm.
  destruct (max_rowid_bound m) as [H0 Hkeys].
  assert (max_rowid (delete k m) ≤ max_rowid m); [|lia].
  apply max_rowid_le; [done|]. intros j [x [_ Hj]%lookup_delete_Some].
  apply Hkeys. by eexists.
Qed.

(** In a state the process reaches every id of a tweet is a rowid. *)
Lemma reachable_tweet_ids w k :
  reachable w → is_Some (tweets (store w) !! k) → int64 k = true.
Proof.
  intros Hr Hk.
  destruct (reachable_tweets_written _ Hr) as (Hkeys & _ & _ & Hlast).
  specialize (Hkeys _ Hk). unfold int64, last_rowid in *.
  apply andb_true_iff. rewrite Z.leb_le, Z.ltb_lt. lia.
Qed.

(** X10.  Deleting a tweet frees its [tweet_id]: while the tweet is
    stored a request to save the same [tweet_id] is answered 400, and
    right after [delete_tweet] removed it the same request is answered
    201, with an id larger than the one deleted.  (The request is one
    whose INSERT gets as far as the UNIQUE check: its [tweetbook_id] fits
    64 bits and the table can take a row.) *)
Theorem deleted_tweet_can_be_saved_again (o : oracle) (data : tweet_body)
    (w : world) (k : Z) (t : tweet) (cont auth : string) :
  reachable w → tweets (store w) !! k = Some t →
  dict_get (b_tweet_id data) = Some (tweet_id t) →
  dict_get (b_content data) = Some cont → cont ≠ "" →
  dict_get (b_author data) = Some auth → auth ≠ "" →
  bindable (dict_get_default (b_tweetbook_id data) 1) = true →
  table_full (tweets_seq (store w)) (tweets (store w)) = false →
  (save_tweet o data w).1
  = Returned (JError "This tweet has already been saved", 400) ∧
  ∃ id, k < id ∧
    (save_tweet o data (delete_tweet k w).2).1
    = Returned (JSavedTweet id (Some (tweet_id t)) (Some cont) (Some auth)
                  (dict_get_default (b_tweetbook_id data) 1), 201).
Proof.
  intros Hr Hk Htid Hcont Hn2 Hauth Hn3 Hb Hleft.
  destruct (reachable_tweets_written _ Hr) as (Hkeys & Huniq & Hfull & Hlast).
  destruct (Hfull _ _ Hk) as (Hn1 & _).
  assert (1 ≤ k ≤ tweets_seq (store w)) as Hrange by (apply Hkeys; by eexists).
  split.
  - rewrite (save_tweet_taken o data w (tweet_id t) k t); try done.
    rewrite Htid, Hcont, Hauth.
    by rewrite (proj2 (truthy_str_Some _) Hn1), (proj2 (truthy_str_Some _) Hn2),
      (proj2 (truthy_str_Some _) Hn3).
  - rewrite delete_tweet_eq, (reachable_tweet_ids w k Hr (mk_is_Some _ _ Hk)), Hk.
    cbn [snd].
    rewrite (save_tweet_free o data _ (tweet_id t) cont auth); try done.
    + eexists. split; [|reflexivity]. simpl.
      destruct (next_rowid_above (tweets_seq (store w))
                  (delete k (tweets (store w)))). lia.
    + simpl. intros k' t' [Hne Hk']%lookup_delete_Some Heq.
      apply Hne. symmetry. by apply (Huniq k' k t' t).
    + simpl. by apply table_full_delete.
Qed.

Lemma deleted_tweet_can_be_saved_again_witness :
  ∃ id, 1 < id ∧
    (save_tweet later_oracle (tweet_in "T1" Missing) (delete_tweet 1 two_tweets).2).1
    = Returned (JSavedTweet id (Some "T1") (Some "hi") (Some "a") (Some 1), 201).
Proof.
  destruct (deleted_tweet_can_be_saved_again later_oracle (tweet_in "T1" Missing)
              two_tweets 1 _ "hi" "a"
              (reachable_serve _ _ _
                 (reachable_serve _ _ _ (reachable_start sample_oracle)))
              eq_refl eq_refl eq_refl ltac:(discriminate) eq_refl
              ltac:(discriminate) eq_refl eq_refl) as [_ (id & Hid & Hsaved)].
  exists id. exact (conj Hid Hsaved).
Defined.

(** ** The listing endpoints *)

Lemma elem_of_rows_of_tweetbook tb d id row :
  (id, row) ∈ rows_of_tweetbook (Some tb) d ↔
  tweets d !! id = Some row ∧ tweetbook_id row = Some tb.
Proof.
  unfold rows_of_tweetbook.
  rewrite list_elem_of_filter, elem_of_map_to_list. simpl. tauto.
Qed.

Lemma elem_of_select_tweets_by_tweetbook tb d e :
  e ∈ select_tweets_by_tweetbook tb d ↔
  ∃ t, tweets d !! t_id e = Some t ∧ tweetbook_id t = Some tb ∧
       e = listed (t_id e, t).
Proof.
  unfold select_tweets_by_tweetbook. rewrite list_elem_of_fmap. split.
  - intros ([id t] & -> & Hin). rewrite merge_sort_Permutation in Hin.
    apply elem_of_rows_of_tweetbook in Hin as [Hk Htb]. by exists t.
  - intros (t & Hk & Htb & He). exists (t_id e, t). split; [done|].
    rewrite merge_sort_Permutation. by apply elem_of_rows_of_tweetbook.
Qed.

(** X11.  [get_tweetbooks] answers 200 with one entry for each stored
    tweetbook, carrying its id, name and description, and no other
    entry, and leaves the state as it was. *)
Theorem get_tweetbooks_lists (w : world) :
  ∃ l,
    get_tweetbooks w = (Returned (l, 200), w) ∧
    (∀ e, e ∈ l ↔
          ∃ t, tweetbooks (store w) !! l_id e = Some t ∧
               l_name e = name t ∧ l_description e = description t) ∧
    NoDup (l_id <$> l) ∧
    length l = size (tweetbooks (store w)).
Proof.
  exists (select_tweetbooks (store w)).
  refine (conj (get_tweetbooks_eq w) (conj _ (conj _ _)));
    unfold select_tweetbooks.
  - intros [id n descr]. rewrite list_elem_of_fmap. simpl. split.
    + intros ([k t] & [= -> -> ->] & Hin%elem_of_map_to_list). by exists t.
    + intros (t & Hk & -> & ->). exists (id, t). split; [done|].
      by apply elem_of_map_to_list.
  - rewrite <- list_fmap_compose. apply (NoDup_fst_map_to_list (tweetbooks (store w))).
  - rewrite length_fmap. apply length_map_to_list.
Qed.

(** X12.  For an id that fits 64 bits, [get_tweets_by_tweetbook]
    answers 200 with exactly the stored tweets whose [tweetbook_id] is
    the given id, each once with its fields, ordered so that no entry was
    created before one that follows it, and leaves the state as it was.
    For an id that does not fit 64 bits it raises [OverflowError] and
    leaves its connection open. *)
Theorem get_tweets_by_tweetbook_lists (tb : Z) (w : world) :
  (int64 tb = true →
   ∃ l,
     get_tweets_by_tweetbook tb w = (Returned (l, 200), w) ∧
     (∀ e, e ∈ l ↔
           ∃ t, tweets (store w) !! t_id e = Some t ∧
                tweetbook_id t = Some tb ∧ e = listed (t_id e, t)) ∧
     NoDup (t_id <$> l) ∧
     StronglySorted (λ a b, t_created_at b ≤ t_created_at a) l) ∧
  (int64 tb = false →
   get_tweets_by_tweetbook tb w = (Raised OverflowError, left_open w)).
Proof.
  split; [|by intros Hb; rewrite get_tweets_by_tweetbook_eq, Hb].
  intros Hb. exists (select_tweets_by_tweetbook tb (store w)).
  refine (conj _ (conj _ (conj _ _))).
  - by rewrite get_tweets_by_tweetbook_eq, Hb.
  - intros e. apply elem_of_select_tweets_by_tweetbook.
  - unfold select_tweets_by_tweetbook. rewrite <- list_fmap_compose.
    rewrite merge_sort_Permutation.
    change (t_id ∘ listed) with (@fst Z tweet).
    eapply sublist_NoDup; [apply (NoDup_fst_map_to_list (tweets (store w)))|].
    apply fmap_sublist, sublist_filter.
  - unfold select_tweets_by_tweetbook.
    apply (StronglySorted_fmap listed newest_first); [done|].
    apply StronglySorted_merge_sort; apply _.
Qed.

Lemma get_tweets_by_tweetbook_lists_witness :
  (∃ l, get_tweets_by_tweetbook 1 two_tweets = (Returned (l, 200), two_tweets) ∧
        NoDup (t_id <$> l)) ∧
  get_tweets_by_tweetbook (2 ^ 63) two_tweets
  = (Raised OverflowError, left_open two_tweets).
Proof.
  split.
  - destruct (proj1 (get_tweets_by_tweetbook_lists 1 two_tweets) eq_refl)
      as (l & Heq & _ & Hnodup & _).
    exists l. exact (conj Heq Hnodup).
  - exact (proj2 (get_tweets_by_tweetbook_lists (2 ^ 63) two_tweets) eq_refl).
Defined.

(** X13.  A saved tweet is listed and a deleted one is not: after
    [save_tweet] answered 201 for tweetbook [tb], the listing of [tb]
    has an entry with the id of the answer, the fields of the request,
    the current time and no [last_shown]; after [delete_tweet] of that id
    the listing has no entry with it. *)
Theorem saved_tweet_is_listed (o : oracle) (data : tweet_body) (w : world)
    (id tb : Z) (a b c : option string) :
  (save_tweet o data w).1 = Returned (JSavedTweet id a b c (Some tb), 201) →
  let saved := (save_tweet o data w).2 in
  (∃ e, e ∈ select_tweets_by_tweetbook tb (store saved) ∧
        (get_tweets_by_tweetbook tb saved).1
        = Returned (select_tweets_by_tweetbook tb (store saved), 200) ∧
        t_id e = id ∧ Some (t_tweet_id e) = a ∧ Some (t_content e) = b ∧
        Some (t_author e) = c ∧ t_created_at e = now o ∧
        t_last_shown e = None) ∧
  (delete_tweet id saved).1
  = Returned (JMessage "Tweet deleted successfully", 200) ∧
  ∀ e, e ∈ select_tweets_by_tweetbook tb (store (delete_tweet id saved).2) →
       t_id e ≠ id.
Proof.
  intros Hsaved saved. subst saved.
  apply save_tweet_201 in Hsaved
    as (tid & cont & auth & -> & -> & -> & Htb & Hb & Hleft & Hid & ->).
  simpl in Hb. clear Htb.
  assert (int64 id = true) as Hid64.
  { apply table_full_false in Hleft. rewrite <- Hid in Hleft.
    destruct (next_rowid_fresh (tweets_seq (store w)) (tweets (store w)))
      as [Hge _].
    rewrite <- Hid in Hge. unfold int64, last_rowid in *.
    apply andb_true_iff. rewrite Z.leb_le, Z.ltb_lt. lia. }
  clear Hid Hleft.
  set (row := {| tweet_id := tid; content := cont; author := auth;
                 tweetbook_id := Some tb; created_at := now o;
                 last_shown := None |}).
  refine (conj _ (conj _ _)).
  - exists (listed (id, row)).
    split; [|by rewrite get_tweets_by_tweetbook_eq, Hb].
    apply elem_of_select_tweets_by_tweetbook. exists row. simpl.
    by rewrite lookup_insert_eq.
  - rewrite delete_tweet_eq, Hid64. simpl. by rewrite lookup_insert_eq.
  - intros e (t & Hk & _)%elem_of_select_tweets_by_tweetbook Hid'.
    rewrite delete_tweet_eq, Hid64 in Hk. simpl in Hk.
    rewrite lookup_insert_eq in Hk.
    simpl in Hk. rewrite Hid' in Hk. by rewrite lookup_delete_eq in Hk.
Qed.

Lemma saved_tweet_is_listed_witness :
  ∃ e, e ∈ select_tweets_by_tweetbook 1
             (store (save_tweet later_oracle (tweet_in "T3" Missing) two_tweets).2)
       ∧ t_tweet_id e = "T3" ∧ t_created_at e = 2000.
Proof.
  destruct (saved_tweet_is_listed later_oracle (tweet_in "T3" Missing)
              two_tweets _ 1 _ _ _ eq_refl)
    as [(e & Hin & _ & _ & Ha & _ & _ & Hnow & _) _].
  exists e. split; [exact Hin|]. split; [by injection Ha|exact Hnow].
Defined.

(** ** The scheduler *)

Lemma split_length sep s : length (split sep s) = S (count_char sep s).
Proof.
  induction s as [|c s IH]; [done|]. simpl.
  destruct (Ascii.eqb c sep); simpl; [by rewrite IH|].
  destruct (split sep s); simpl in *; [done|lia].
Qed.

Lemma update_scheduler_one_job o w :
  jobs (update_scheduler o w).2 = [] ∨
  ∃ t, jobs (update_scheduler o w).2 = [show_tweet_job t].
Proof.
  unfold update_scheduler. run.
  destruct (select_settings (store w)) as [row|]; simpl; [|by left].
  destruct (truthy_int (random_mode row)); simpl;
    repeat case_bool_decide; simpl; try (by left); try (right; by eexists);
    destruct (start_time row) as [s|]; simpl; try (by left);
    destruct (split ":" s) as [|hour [|minute [|? ?]]]; simpl;
    try (by left);
    destruct (field_accepted o "hour" 23 hour),
      (field_accepted o "minute" 59 minute); simpl;
    try (by left); right; by eexists.
Qed.

Lemma update_scheduler_jobs o w :
  (length (jobs (update_scheduler o w).2) ≤ 1)%nat ∧
  Forall (λ j, job_id j = "show_tweet") (jobs (update_scheduler o w).2).
Proof.
  destruct (update_scheduler_one_job o w) as [->|[t ->]]; simpl.
  - split; [lia|constructor].
  - split; [lia|by repeat constructor].
Qed.

Lemma update_scheduler_reads_store o w w' :
  store w' = store w →
  (update_scheduler o w').1 = (update_scheduler o w).1 ∧
  jobs (update_scheduler o w').2 = jobs (update_scheduler o w).2.
Proof.
  intros Heq. unfold update_scheduler. run. rewrite Heq.
  destruct (select_settings (store w)) as [row|]; simpl; [|done].
  sched_cases row.
Qed.

Lemma update_scheduler_raises o w e :
  (update_scheduler o w).1 = Raised e → e = ValueError ∨ e = AttributeError.
Proof.
  unfold update_scheduler. run.
  destruct (select_settings (store w)) as [row|]; simpl; [|done].
  destruct (truthy_int (random_mode row)); simpl;
    repeat case_bool_decide; simpl; try done;
    destruct (start_time row) as [s|]; simpl; try (intros [= <-]; by right);
    destruct (split ":" s) as [|hour [|minute [|? ?]]]; simpl;
    try (intros [= <-]; by left);
    destruct (field_accepted o "hour" 23 hour),
      (field_accepted o "minute" 59 minute); simpl; try done;
    intros [= <-]; by left.
Qed.

(** X14.  Whatever jobs were scheduled before, after [update_scheduler]
    there is at most one job and its id is 'show_tweet'; the outcome and
    the job depend on the stored settings and on what the environment
    contributes to the call alone.  The call never fails on a job id that
    is already taken; when it raises, it is on the start time. *)
Theorem update_scheduler_replaces_jobs (o : oracle) (w w' : world) (e : exn) :
  (length (jobs (update_scheduler o w).2) ≤ 1)%nat ∧
  Forall (λ j, job_id j = "show_tweet") (jobs (update_scheduler o w).2) ∧
  (store w' = store w →
     (update_scheduler o w').1 = (update_scheduler o w).1 ∧
     jobs (update_scheduler o w').2 = jobs (update_scheduler o w).2) ∧
  ((update_scheduler o w).1 = Raised e → e = ValueError ∨ e = AttributeError).
Proof.
  destruct (update_scheduler_jobs o w) as [Hlen Hids].
  refine (conj Hlen (conj Hids (conj _ _))).
  - apply update_scheduler_reads_store.
  - apply update_scheduler_raises.
Qed.

Lemma update_scheduler_replaces_jobs_witness :
  jobs (update_scheduler sample_oracle
          {| store := store daily_run;
             jobs := [show_tweet_job (IntervalTrigger 5);
                      show_tweet_job (IntervalTrigger 6)];
             open_conns := 0; console := []; recomputes := [] |}).2
  = jobs (update_scheduler sample_oracle daily_run).2.
Proof.
  destruct (update_scheduler_replaces_jobs sample_oracle daily_run
              {| store := store daily_run;
                 jobs := [show_tweet_job (IntervalTrigger 5);
                          show_tweet_job (IntervalTrigger 6)];
                 open_conns := 0; console := []; recomputes := [] |}
              ValueError) as (_ & _ & Hsame & _).
  exact (proj2 (Hsame eq_refl)).
Defined.


Lemma serve_jobs o r w :
  jobs (serve o r w) = jobs w ∨
  ∃ w1, jobs (serve o r w) = jobs (update_scheduler o w1).2.
Proof.
  destruct r as [data|data| |data|arg|id|]; simpl.
  - left. rewrite create_tweetbook_eq. destruct (truthy_str _); [|done].
    by destruct (insert_tweetbook _ _ _ _) as [[k d]|[]].
  - left. rewrite save_tweet_eq. destruct (_ && _); [|done].
    destruct (bindable _); [|done].
    by destruct (insert_tweet _ _ _ _ _ _ _) as [[k d]|[]].
  - left. rewrite get_settings_eq. by destruct (select_settings_join (store w)).
  - rewrite update_settings_eq. destruct (update_fields data); [by left|].
    destruct (bindable _); [|by left].
    right.
    match goal with |- context [update_scheduler o ?w1] =>
      exists w1; by destruct (update_scheduler o w1) as [[[]|e] w'] end.
  - left. rewrite get_random_tweet_endpoint_eq.
    destruct arg; try done; simpl; try destruct (int64 n); try done;
      by destruct (order_by_random_limit_1 _ _) as [[? ?]|].
  - left. rewrite delete_tweet_eq. destruct (int64 id); [|done].
    by destruct (tweets (store w) !! id).
  - left. rewrite show_tweet_notification_eq.
    destruct (select_settings (store w)) as [row|]; [|done].
    destruct (bindable _); [|done].
    by destruct (order_by_random_limit_1 _ _) as [[? ?]|].
Qed.

Lemma startup_jobs o file :
  ∃ w1, jobs (startup o file).2 = jobs (update_scheduler o w1).2.
Proof. unfold startup, bind at 1. rewrite init_db_eq. by eexists. Qed.

(** X15.  In every state the process reaches at most one job is
    scheduled, and its id is 'show_tweet'. *)
Theorem at_most_one_job (w : world) :
  reachable w →
  (length (jobs w) ≤ 1)%nat ∧ Forall (λ j, job_id j = "show_tweet") (jobs w).
Proof.
  induction 1 as [o|o r w _ IH|o w _ IH].
  - destruct (startup_jobs o empty_db) as [w1 ->]. apply update_scheduler_jobs.
  - destruct (serve_jobs o r w) as [->|[w1 ->]]; [done|].
    apply update_scheduler_jobs.
  - destruct (startup_jobs o (store w)) as [w1 ->]. apply update_scheduler_jobs.
Qed.

Lemma at_most_one_job_witness :
  (length (jobs daily_run) ≤ 1)%nat ∧
  Forall (λ j, job_id j = "show_tweet") (jobs daily_run).
Proof.
  apply (at_most_one_job daily_run).
  apply (reachable_serve sample_oracle (UpdateSettings (daily_at "09:30"))).
  apply reachable_start.
Defined.

Lemma is_letter_no_digit c : is_letter c = true → digit_value c = None.
Proof.
  unfold is_letter, digit_value.
  set (n := Z.of_nat (Ascii.nat_of_ascii c)).
  rewrite orb_true_iff, !andb_true_iff, !Z.leb_le. intros Hn.
  destruct ((48 <=? n) && (n <=? 57)) eqn:E; [|done].
  rewrite andb_true_iff, !Z.leb_le in E. lia.
Qed.

Lemma parse_digits_letter s acc : has_letter s = true → parse_digits acc s = None.
Proof.
  revert acc. induction s as [|c s IH]; intros acc; [done|]. simpl.
  destruct (is_letter c) eqn:Hc.
  - by rewrite (is_letter_no_digit _ Hc).
  - simpl. intros Hs. destruct (digit_value c); [by apply IH|done].
Qed.

Lemma parse_number_letter s : has_letter s = true → parse_number s = None.
Proof. destruct s; [done|]. apply parse_digits_letter. Qed.

Lemma has_letter_split s : existsb has_letter (split "-" s) = has_letter s.
Proof.
  induction s as [|c s IH]; [done|]. simpl.
  destruct (Ascii.eqb_spec c "-") as [->|Hc]; [by rewrite <- IH|].
  destruct (split "-" s) as [|hd tl]; simpl in *.
  - by rewrite <- IH, !orb_false_r.
  - by rewrite <- IH, orb_assoc.
Qed.

(** The constructor refuses a field that is empty or contains a letter. *)
Lemma field_refused o name max s :
  s = "" ∨ has_letter s = true → field_accepted o name max s = false.
Proof.
  intros Hs. unfold field_accepted.
  assert (cron_field s = None) as ->.
  { destruct Hs as [->|Hs]; [done|]. unfold cron_field.
    rewrite <- has_letter_split in Hs.
    destruct (split "-" s) as [|a [|b [|? ?]]]; try done; simpl in Hs.
    - rewrite orb_false_r in Hs. by rewrite (parse_number_letter _ Hs).
    - rewrite orb_false_r in Hs. apply orb_true_iff in Hs as [Hs|Hs];
        rewrite (parse_number_letter _ Hs); [done|by destruct (parse_number a)]. }
  destruct Hs as [-> | ->]; [done|]. by rewrite orb_true_r.
Qed.

(** X16.  With [random_mode] off and frequency 'daily',
    [update_scheduler] returns only when the start time contains exactly
    one colon.  With any other number of colons it raises [ValueError]
    after the jobs were removed: no job is left and its connection stays
    open.  With one colon it returns, the cron job of the two halves
    scheduled and the connection closed, when the halves are numbers, the
    hour at most 23 and the minute at most 59; and it raises [ValueError],
    again with no job left and the connection open, when the halves are
    numbers beyond that, as in '25:00', and when a half is empty or
    contains a letter, as in ':' and 'ab:cd'. *)
Theorem daily_needs_one_colon (o : oracle) (w : world) (row : settings_row)
    (s : string) :
  select_settings (store w) = Some row →
  truthy_int (random_mode row) = false →
  notification_frequency row = Some "daily" →
  start_time row = Some s →
  let out := update_scheduler o w in
  let refused :=
    out.1 = Raised ValueError ∧ jobs out.2 = [] ∧
    open_conns out.2 = S (open_conns w) in
  (out.1 = Returned tt → count_char ":" s = 1%nat) ∧
  (count_char ":" s ≠ 1%nat → refused) ∧
  (∀ hour minute,
     split ":" s = [hour; minute] →
     (∀ H Mi, parse_number hour = Some H → parse_number minute = Some Mi →
        (H ≤ 23 ∧ Mi ≤ 59 →
           out.1 = Returned tt ∧
           jobs out.2 = [show_tweet_job (CronTrigger hour minute)] ∧
           open_conns out.2 = open_conns w) ∧
        (23 < H ∨ 59 < Mi → refused)) ∧
     (hour = "" ∨ has_letter hour = true ∨
      minute = "" ∨ has_letter minute = true → refused)).
Proof.
  intros Hrow Hr Hf Hs out refused. subst out refused.
  assert (count_char ":" s ≠ 1%nat →
          (update_scheduler o w).1 = Raised ValueError ∧
          jobs (update_scheduler o w).2 = [] ∧
          open_conns (update_scheduler o w).2 = S (open_conns w)) as Hbad.
  { intros Hcount.
    destruct (update_scheduler_daily_unparsed o w row s Hrow Hr Hf Hs)
      as [Hraised Hjobs]; [rewrite split_length; lia|].
    refine (conj Hraised (conj Hjobs _)).
    rewrite update_scheduler_releases. by rewrite Hraised. }
  refine (conj _ (conj Hbad _)).
  - intros Hret. destruct (decide (count_char ":" s = 1%nat)) as [|Hne]; [done|].
    destruct (Hbad Hne) as [Hraised _]. congruence.
  - intros hour minute Hsplit.
    rewrite (update_scheduler_daily o w row s hour minute Hrow Hr Hf Hs Hsplit).
    split.
    + intros H Mi HH HMi.
      rewrite (field_accepted_number _ _ _ _ _ HH),
        (field_accepted_number _ _ _ _ _ HMi).
      split.
      * intros [Hh Hm].
        by rewrite (proj2 (Z.leb_le H 23) Hh), (proj2 (Z.leb_le Mi 59) Hm).
      * intros Hout.
        assert ((H <=? 23) && (Mi <=? 59) = false) as ->; [|done].
        apply andb_false_iff. rewrite !Z.leb_gt. lia.
    + intros Hout.
      assert (field_accepted o "hour" 23 hour
              && field_accepted o "minute" 59 minute = false) as ->; [|done].
      apply andb_false_iff.
      destruct Hout as [Hh|[Hh|[Hm|Hm]]];
        [left|left|right|right]; apply field_refused; auto.
Qed.

Lemma daily_needs_one_colon_witness :
  (update_scheduler sample_oracle daily_run).1 = Returned tt ∧
  (update_scheduler sample_oracle
     (update_settings sample_oracle (daily_at "25:00") first_run).2).1
  = Raised ValueError ∧
  (update_scheduler sample_oracle
     (update_settings sample_oracle (daily_at "ab:cd") first_run).2).1
  = Raised ValueError.
Proof.
  refine (conj _ (conj _ _)).
  - destruct (daily_needs_one_colon sample_oracle daily_run
                {| notification_frequency := Some "daily";
                   active_tweetbook_id := Some 1;
                   start_time := Some "09:30"; end_time := Some "17:00";
                   random_mode := Some 0 |} "09:30" eq_refl eq_refl eq_refl eq_refl)
      as (_ & _ & Hone).
    destruct (Hone "09" "30" eq_refl) as [Hnumbers _].
    destruct (Hnumbers 9 30 eq_refl eq_refl) as [Hin _].
    exact (proj1 (Hin ltac:(lia))).
  - destruct (daily_needs_one_colon sample_oracle
                (update_settings sample_oracle (daily_at "25:00") first_run).2
                {| notification_frequency := Some "daily";
                   active_tweetbook_id := Some 1;
                   start_time := Some "25:00"; end_time := Some "17:00";
                   random_mode := Some 0 |} "25:00" eq_refl eq_refl eq_refl eq_refl)
      as (_ & _ & Hone).
    destruct (Hone "25" "00" eq_refl) as [Hnumbers _].
    destruct (Hnumbers 25 0 eq_refl eq_refl) as [_ Hout].
    exact (proj1 (Hout ltac:(lia))).
  - destruct (daily_needs_one_colon sample_oracle
                (update_settings sample_oracle (daily_at "ab:cd") first_run).2
                {| notification_frequency := Some "daily";
                   active_tweetbook_id := Some 1;
                   start_time := Some "ab:cd"; end_time := Some "17:00";
                   random_mode := Some 0 |} "ab:cd" eq_refl eq_refl eq_refl eq_refl)
      as (_ & _ & Hone).
    destruct (Hone "ab" "cd" eq_refl) as [_ Hletters].
    exact (proj1 (Hletters (or_intror (or_introl eq_refl)))).
Defined.





(** ** The settings of a running process *)















(** ** The random tweet endpoint *)

(** X21.  [get_random_tweet_endpoint] answers 400 to a parameter that is
    no integer, without touching the database.  To an integer that fits
    64 bits, and to a missing or empty parameter, which means no filter,
    it answers 404 and changes nothing when there is no candidate, and
    answers 200 with one of the candidates, marking it shown, when there
    is one.  On an integer that does not fit 64 bits it raises
    [OverflowError], with the store unchanged and the connection of
    [get_random_tweet] left open. *)
Theorem get_random_tweet_endpoint_answers (o : oracle) (arg : query_arg)
    (w : world) :
  let tb := match arg with ArgInt n => Some n | _ => None end in
  (arg = ArgNotInt →
     get_random_tweet_endpoint o arg w
     = (Returned (JError "Invalid tweetbook ID", 400), w)) ∧
  (arg ≠ ArgNotInt → bindable tb = true → candidates tb (store w) = [] →
     get_random_tweet_endpoint o arg w
     = (Returned (JError "No tweets found", 404), w)) ∧
  (arg ≠ ArgNotInt → bindable tb = true → candidates tb (store w) ≠ [] →
     ∃ id row,
       (id, row) ∈ candidates tb (store w) ∧
       (get_random_tweet_endpoint o arg w).1
       = Returned (JTweet (dict_of id row), 200) ∧
       store (get_random_tweet_endpoint o arg w).2
       = update_last_shown (now o) id (store w)) ∧
  (bindable tb = false →
     get_random_tweet_endpoint o arg w = (Raised OverflowError, left_open w)).
Proof.
  intros tb. subst tb. rewrite get_random_tweet_endpoint_eq.
  refine (conj _ (conj _ (conj _ _))).
  - by intros ->.
  - intros Harg Hb Hnone. destruct arg; try done; simpl in *;
      by rewrite ?Hb, Hnone, order_by_random_limit_1_nil.
  - intros Harg Hb Hsome.
    destruct (order_by_random_limit_1_is_Some (rnd o) _ Hsome) as [[id row] Hpick].
    exists id, row. split; [by eapply list_elem_of_lookup_2|].
    destruct arg; try done; simpl in *; by rewrite ?Hb, Hpick.
  - intros Hb. destruct arg; try done. simpl in *. by rewrite Hb.
Qed.

Lemma get_random_tweet_endpoint_answers_witness :
  get_random_tweet_endpoint sample_oracle (ArgInt 2) with_jokes
  = (Returned (JError "No tweets found", 404), with_jokes) ∧
  get_random_tweet_endpoint sample_oracle ArgNotInt with_jokes
  = (Returned (JError "Invalid tweetbook ID", 400), with_jokes) ∧
  get_random_tweet_endpoint sample_oracle (ArgInt (2 ^ 63)) with_jokes
  = (Raised OverflowError, left_open with_jokes).
Proof.
  destruct (get_random_tweet_endpoint_answers sample_oracle (ArgInt 2) with_jokes)
    as (_ & Hnone & _).
  destruct (get_random_tweet_endpoint_answers sample_oracle ArgNotInt with_jokes)
    as (Hbad & _).
  destruct (get_random_tweet_endpoint_answers sample_oracle (ArgInt (2 ^ 63))
              with_jokes) as (_ & _ & _ & Hbig).
  refine (conj _ (conj _ _)).
  - exact (Hnone ltac:(discriminate) eq_refl eq_refl).
  - exact (Hbad eq_refl).
  - exact (Hbig eq_refl).
Defined.

(** ** Which request changes what *)

Lemma update_settings_console o data w :
  console (update_settings o data w).2 = console w.
Proof.
  rewrite update_settings_eq. destruct (update_fields data); [done|].
  destruct (bindable _); [|done].
  match goal with |- context [update_scheduler o ?w1] =>
    pose proof (update_scheduler_console o w1) as Hc;
    destruct (update_scheduler o w1) as [[[]|e] w'] end; done.
Qed.

Lemma serve_frame o r w :
  let w' := serve o r w in
  match r with
  | CreateTweetbook _ =>
      settings (store w') = settings (store w) ∧ jobs w' = jobs w ∧
      recomputes w' = recomputes w ∧ console w' = console w ∧
      tweets (store w') = tweets (store w)
  | GetSettings =>
      store w' = store w ∧ jobs w' = jobs w ∧
      recomputes w' = recomputes w ∧ console w' = console w
  | UpdateSettings _ =>
      console w' = console w ∧ tweetbooks (store w') = tweetbooks (store w) ∧
      tweets (store w') = tweets (store w)
  | JobFires =>
      settings (store w') = settings (store w) ∧ jobs w' = jobs w ∧
      recomputes w' = recomputes w ∧
      tweetbooks (store w') = tweetbooks (store w)
  | _ =>
      settings (store w') = settings (store w) ∧ jobs w' = jobs w ∧
      recomputes w' = recomputes w ∧ console w' = console w ∧
      tweetbooks (store w') = tweetbooks (store w)
  end.
Proof.
  destruct r as [data|data| |data|arg|id|]; simpl.
  - rewrite create_tweetbook_eq. destruct (truthy_str _); [|done].
    destruct (insert_tweetbook _ _ _ _) as [[k d]|e] eqn:E; [|by destruct e].
    by apply insert_tweetbook_Returned in E as (? & _ & _ & _ & _ & ->).
  - rewrite save_tweet_eq. destruct (_ && _); [|done].
    destruct (bindable _); [|done].
    destruct (insert_tweet _ _ _ _ _ _ _) as [[k d]|e] eqn:E; [|by destruct e].
    by apply insert_tweet_Returned
      in E as (? & ? & ? & _ & _ & _ & _ & _ & _ & ->).
  - rewrite get_settings_eq. by destruct (select_settings_join (store w)).
  - rewrite update_settings_console, update_settings_store.
    by destruct (bindable _), (update_fields data).
  - rewrite get_random_tweet_endpoint_eq.
    destruct arg; simpl; try done; try destruct (int64 n); try done;
      by destruct (order_by_random_limit_1 _ _) as [[? ?]|].
  - rewrite delete_tweet_eq. destruct (int64 id); [|done].
    by destruct (tweets (store w) !! id).
  - rewrite show_tweet_notification_eq.
    destruct (select_settings (store w)) as [row|]; [|done].
    destruct (bindable _); [|done].
    by destruct (order_by_random_limit_1 _ _) as [[? ?]|].
Qed.

(** X22.  Only [update_settings] changes the settings, the scheduled
    jobs or the record of recomputations; only a firing of the job prints
    to the console; only [create_tweetbook] changes the tweetbooks; and
    [create_tweetbook], [get_settings] and [update_settings] never change
    a tweet. *)
Theorem what_a_request_can_change (o : oracle) (r : request) (w : world) :
  ((∀ data, r ≠ UpdateSettings data) →
   settings (store (serve o r w)) = settings (store w) ∧
   jobs (serve o r w) = jobs w ∧ recomputes (serve o r w) = recomputes w) ∧
  (r ≠ JobFires → console (serve o r w) = console w) ∧
  ((∀ data, r ≠ CreateTweetbook data) →
   tweetbooks (store (serve o r w)) = tweetbooks (store w)) ∧
  ((∃ data, r = CreateTweetbook data) ∨ r = GetSettings ∨
   (∃ data, r = UpdateSettings data) →
   tweets (store (serve o r w)) = tweets (store w)).
Proof.
  pose proof (serve_frame o r w) as Hframe.
  destruct r as [data|data| |data|arg|id|]; simpl in Hframe |- *.
  - destruct Hframe as (Hs & Hj & Hr & Hc & Ht).
    refine (conj _ (conj _ (conj _ _))); try done. intros H. by destruct (H data).
  - destruct Hframe as (Hs & Hj & Hr & Hc & Hb).
    refine (conj _ (conj _ (conj _ _))); try done.
    intros [[? ?]|[?|[? ?]]]; done.
  - destruct Hframe as (Hs & Hj & Hr & Hc).
    refine (conj _ (conj _ (conj _ _))); try done; intros; by rewrite Hs.
  - destruct Hframe as (Hc & Hb & Ht).
    refine (conj _ (conj _ (conj _ _))); try done. intros H. by destruct (H data).
  - destruct Hframe as (Hs & Hj & Hr & Hc & Hb).
    refine (conj _ (conj _ (conj _ _))); try done.
    intros [[? ?]|[?|[? ?]]]; done.
  - destruct Hframe as (Hs & Hj & Hr & Hc & Hb).
    refine (conj _ (conj _ (conj _ _))); try done.
    intros [[? ?]|[?|[? ?]]]; done.
  - destruct Hframe as (Hs & Hj & Hr & Hb).
    refine (conj _ (conj _ (conj _ _))); try done.
    intros [[? ?]|[?|[? ?]]]; done.
Qed.

Lemma what_a_request_can_change_witness :
  settings (store two_tweets) = settings (store first_run) ∧
  jobs two_tweets = jobs first_run ∧
  console (serve sample_oracle (DeleteTweet 1) two_tweets) = console two_tweets.
Proof.
  destruct (what_a_request_can_change sample_oracle (DeleteTweet 1) two_tweets)
    as (_ & Hconsole & _).
  destruct (what_a_request_can_change sample_oracle
              (SaveTweet (tweet_in "T2" Missing))
              (serve sample_oracle (SaveTweet (tweet_in "T1" (Given 0)))
                 first_run)) as (H2 & _).
  destruct (what_a_request_can_change sample_oracle
              (SaveTweet (tweet_in "T1" (Given 0))) first_run) as (H1 & _).
  destruct (H1 ltac:(discriminate)) as (Hs1 & Hj1 & _).
  destruct (H2 ltac:(discriminate)) as (Hs2 & Hj2 & _).
  refine (conj _ (conj _ (Hconsole ltac:(discriminate)))).
  - unfold two_tweets. by rewrite Hs2, Hs1.
  - unfold two_tweets. by rewrite Hj2, Hj1.
Defined.

(** ** Connections given back *)

Lemma update_settings_releases o data w r :
  (update_settings o data w).1 = Returned r →
  open_conns (update_settings o data w).2 = open_conns w.
Proof.
  rewrite update_settings_eq. destruct (update_fields data); [done|].
  destruct (bindable _); [|done].
  match goal with |- context [update_scheduler o ?w1] =>
    pose proof (update_scheduler_releases o w1) as Hc;
    destruct (update_scheduler o w1) as [[[]|e] w'] end; simpl in *; [|done].
  intros _. by rewrite Hc.
Qed.

(** X23.  [init_db] and [get_tweetbooks], which bind nothing, close the
    connection they open on every path.  Every handler closes it
    whenever it returns a response, the 400 of a constraint violation
    included; the one exception is [get_random_tweet_endpoint] answering
    with a tweet.  A handler that raises [OverflowError], on an integer
    that does not fit 64 bits, leaves the connection open, and so do
    [create_tweetbook] and [save_tweet] when they raise
    [OperationalError], on a table that takes no row. *)
Theorem connections_given_back (o : oracle) (w : world)
    (book : tweetbook_body) (tweet : tweet_body) (patch : settings_body)
    (arg : query_arg) (id tb : Z) :
  open_conns (init_db o w).2 = open_conns w ∧
  open_conns (get_tweetbooks w).2 = open_conns w ∧
  (∀ r, (create_tweetbook o book w).1 = Returned r →
        open_conns (create_tweetbook o book w).2 = open_conns w) ∧
  (∀ r, (save_tweet o tweet w).1 = Returned r →
        open_conns (save_tweet o tweet w).2 = open_conns w) ∧
  (∀ r, (delete_tweet id w).1 = Returned r →
        open_conns (delete_tweet id w).2 = open_conns w) ∧
  (∀ r, (get_tweets_by_tweetbook tb w).1 = Returned r →
        open_conns (get_tweets_by_tweetbook tb w).2 = open_conns w) ∧
  (∀ r, (update_settings o patch w).1 = Returned r →
        open_conns (update_settings o patch w).2 = open_conns w) ∧
  (∀ r, (get_settings w).1 = Returned r →
        open_conns (get_settings w).2 = open_conns w) ∧
  (∀ body status, (get_random_tweet_endpoint o arg w).1 = Returned (body, status) →
        status ≠ 200 →
        open_conns (get_random_tweet_endpoint o arg w).2 = open_conns w) ∧
  ((save_tweet o tweet w).1 = Raised OverflowError →
     open_conns (save_tweet o tweet w).2 = S (open_conns w)) ∧
  ((delete_tweet id w).1 = Raised OverflowError →
     open_conns (delete_tweet id w).2 = S (open_conns w)) ∧
  ((get_tweets_by_tweetbook tb w).1 = Raised OverflowError →
     open_conns (get_tweets_by_tweetbook tb w).2 = S (open_conns w)) ∧
  ((update_settings o patch w).1 = Raised OverflowError →
     open_conns (update_settings o patch w).2 = S (open_conns w)) ∧
  ((get_random_tweet_endpoint o arg w).1 = Raised OverflowError →
     open_conns (get_random_tweet_endpoint o arg w).2 = S (open_conns w)) ∧
  ((create_tweetbook o book w).1 = Raised OperationalError →
     open_conns (create_tweetbook o book w).2 = S (open_conns w)) ∧
  ((save_tweet o tweet w).1 = Raised OperationalError →
     open_conns (save_tweet o tweet w).2 = S (open_conns w)).
Proof.
  pose proof (create_tweetbook_releases o w book) as Hcreate.
  pose proof (save_tweet_releases o w tweet) as Hsave.
  pose proof (delete_tweet_releases w id) as Hdelete.
  refine (conj (init_db_releases o w) (conj _ (conj _ (conj _ (conj _ (conj _
            (conj _ (conj _ (conj _ (conj _ (conj _ (conj _ (conj _
            (conj _ (conj _ _))))))))))))))).
  - by rewrite get_tweetbooks_eq.
  - intros r Hr. by rewrite Hr in Hcreate.
  - intros r Hr. by rewrite Hr in Hsave.
  - intros r Hr. by rewrite Hr in Hdelete.
  - intros r. rewrite get_tweets_by_tweetbook_eq. by destruct (int64 tb).
  - apply update_settings_releases.
  - intros r. rewrite get_settings_eq.
    by destruct (select_settings_join (store w)).
  - intros body status. rewrite get_random_tweet_endpoint_eq.
    destruct arg; simpl; try done; try destruct (int64 n); try done;
      destruct (order_by_random_limit_1 _ _) as [[? ?]|]; simpl; try done;
      by intros [= <- <-].
  - intros Hr. by rewrite Hr in Hsave.
  - intros Hr. by rewrite Hr in Hdelete.
  - rewrite get_tweets_by_tweetbook_eq. by destruct (int64 tb).
  - rewrite update_settings_eq. destruct (update_fields patch); [done|].
    destruct (bindable _); [|done].
    match goal with |- context [update_scheduler o ?w1] =>
      pose proof (update_scheduler_raises o w1 OverflowError) as Hc;
      destruct (update_scheduler o w1) as [[[]|e] w'] end; simpl in *; [done|].
    intros [= ->]. by destruct Hc.
  - rewrite get_random_tweet_endpoint_eq.
    destruct arg; simpl; try done; try destruct (int64 n); try done;
      by destruct (order_by_random_limit_1 _ _) as [[? ?]|].
  - intros Hr. by rewrite Hr in Hcreate.
  - intros Hr. by rewrite Hr in Hsave.
Qed.

Lemma connections_given_back_witness :
  open_conns (update_settings sample_oracle (daily_at "09:30") first_run).2
  = open_conns first_run ∧
  open_conns (delete_tweet (2 ^ 63) first_run).2 = S (open_conns first_run).
Proof.
  destruct (connections_given_back sample_oracle first_run jokes
              (tweet_in "T1" Missing) (daily_at "09:30") ArgMissing (2 ^ 63) 1)
    as (_ & _ & _ & _ & _ & _ & Hupdate & _ & _ & _ & Hdelete & _).
  exact (conj (Hupdate _ eq_refl) (Hdelete eq_refl)).
Defined.

(** ** Tweets outside every tweetbook *)

(** X24.  A tweet saved with a null [tweetbook_id] belongs to no
    tweetbook: no listing shows it and no random selection with a
    non-zero filter returns it; only a selection without filter can
    return it, and some draw does. *)
Theorem tweet_without_tweetbook (w : world) (k : Z) (t : tweet) :
  tweets (store w) !! k = Some t → tweetbook_id t = None →
  (∀ tb e, e ∈ select_tweets_by_tweetbook tb (store w) → t_id e ≠ k) ∧
  (∀ o tb r, tb ≠ 0 →
     (get_random_tweet o (Some tb) w).1 = Returned (Some r) → d_id r ≠ k) ∧
  (∃ draw, ∀ o, rnd o = draw →
     (get_random_tweet o None w).1 = Returned (Some (dict_of k t))).
Proof.
  intros Hk Hnull. refine (conj _ (conj _ _)).
  - intros tb e (t' & Hk' & Htb & _)%elem_of_select_tweets_by_tweetbook Hid.
    rewrite Hid in Hk'. congruence.
  - intros o tb r Htb. rewrite get_random_tweet_eq.
    destruct (bindable _); [|done].
    destruct (order_by_random_limit_1 (rnd o) (candidates (Some tb) (store w)))
      as [[id row]|] eqn:Hpick; [|done].
    simpl. intros [= <-]. simpl. intros ->.
    apply list_elem_of_lookup_2, elem_of_candidates in Hpick as [Hrow Hfilter].
    assert (truthy_int (Some tb) = true) as Htruthy.
    { simpl. by rewrite (proj2 (Z.eqb_neq tb 0) Htb). }
    specialize (Hfilter Htruthy). congruence.
  - destruct (every_candidate_drawn (candidates None (store w)) (k, t))
      as [draw Hdraw].
    { unfold candidates. simpl. by apply elem_of_map_to_list. }
    exists draw. intros o Ho. rewrite <- Ho in Hdraw.
    by rewrite (get_random_tweet_found o None w k t eq_refl Hdraw).
Qed.

Lemma tweet_without_tweetbook_witness :
  ∃ draw,
    (get_random_tweet {| rnd := draw; now := 2000; accepts := λ _ _, false |} None
       (save_tweet sample_oracle (tweet_in "T1" Null) first_run).2).1
    = Returned (Some {| d_id := 1; d_tweet_id := "T1"; d_content := "hi";
                        d_author := "a" |}).
Proof.
  destruct (tweet_without_tweetbook
              (save_tweet sample_oracle (tweet_in "T1" Null) first_run).2
              1 _ eq_refl eq_refl) as (_ & _ & draw & Hdraw).
  exists draw.
  exact (Hdraw {| rnd := draw; now := 2000; accepts := λ _ _, false |} eq_refl).
Defined.
